(** * ai-mcp-agent: transport client, intent routing, calculator and catalog tools

    A shallow embedding of [app/agent.py] and [mcp_server/mcp_server.py].

    - Python [str] values are sequences of Unicode code points ([str]).
    - Python exceptions are carried by the [result] type; [try]/[except]
      blocks become matches on it, and [str(e)] in a handler is [str_of],
      which raises for a class whose [__str__] raises.
    - Objects that the code mutates (the client's request counter, the
      child process' pipes, the module-level [products_data] list and the
      products file) are threaded explicitly through the functions; list
      objects of the server live on a heap so that two names for one list
      stay two names for one list.
    - Interpreter builtins whose full behaviour is defined by the Unicode
      database, by the float parser/printer, by hashing or by [eval] are
      methods of the [PyRuntime] class; every theorem about the program
      holds for all runtimes, and [RefPy] is a reference runtime on which
      the functions can be run.
    - The bytes on the pipe are represented by what the decoders make of
      them ([reply]); a [readline()] on a child that never answers does not
      return and has no counterpart here, nor has an [eval] that does not
      terminate.
    - [logger] calls are omitted, and the [@tool] decorator is read as
      leaving [calculator] callable as the function it wraps, as
      [process_user_query] and the tests use it. *)

From Stdlib Require Import ZArith NArith List String Ascii Bool Lia.
From Stdlib Require Import Sorting.Sorted.
From Stdlib Require Import Numbers.DecimalString.
From Stdlib Require Import Floats.SpecFloat.
Import ListNotations.

Set Implicit Arguments.
Set Warnings "-register-all".
Open Scope bool_scope.

(* ================================================================== *)
(** * Text *)
(* ================================================================== *)

(** A Python [str]: a sequence of code points. *)
Definition str := list N.

Module Text.

(** ** Literals: the UTF-8 bytes of a source literal, decoded *)

Definition cont (b : N) : N := N.land b 63.

Fixpoint utf8_decode (fuel : nat) (bs : list N) : str :=
  match fuel with
  | O => []
  | S fuel' =>
    match bs with
    | [] => []
    | b0 :: r0 =>
      if (b0 <? 128)%N then b0 :: utf8_decode fuel' r0
      else if (b0 <? 224)%N then
        match r0 with
        | b1 :: r1 =>
          (N.land b0 31 * 64 + cont b1)%N :: utf8_decode fuel' r1
        | _ => []
        end
      else if (b0 <? 240)%N then
        match r0 with
        | b1 :: b2 :: r2 =>
          (N.land b0 15 * 4096 + cont b1 * 64 + cont b2)%N
            :: utf8_decode fuel' r2
        | _ => []
        end
      else
        match r0 with
        | b1 :: b2 :: b3 :: r3 =>
          (N.land b0 7 * 262144 + cont b1 * 4096 + cont b2 * 64 + cont b3)%N
            :: utf8_decode fuel' r3
        | _ => []
        end
    end
  end.

Definition bytes_of (s : string) : list N :=
  map N_of_ascii (list_ascii_of_string s).

(** [u "..."] is the Python literal ["..."]. *)
Definition u (s : string) : str :=
  let bs := bytes_of s in utf8_decode (List.length bs) bs.

(** ** Equality, [startswith], [in] *)

Fixpoint eqb (a b : str) : bool :=
  match a, b with
  | [], [] => true
  | x :: a', y :: b' => (x =? y)%N && eqb a' b'
  | _, _ => false
  end.

(** [s.startswith(p)] *)
Fixpoint startswith (p s : str) : bool :=
  match p, s with
  | [], _ => true
  | x :: p', y :: s' => (x =? y)%N && startswith p' s'
  | _ :: _, [] => false
  end.

(** [needle in hay] *)
Fixpoint contains (needle hay : str) : bool :=
  startswith needle hay ||
  match hay with
  | [] => false
  | _ :: hay' => contains needle hay'
  end.

(** ** Whitespace: [str.split()] and [str.strip()] *)

(** The code points for which [str.isspace()] holds. *)
Definition is_space (c : N) : bool :=
  ((9 <=? c) && (c <=? 13) || (28 <=? c) && (c <=? 32)
   || (c =? 133) || (c =? 160) || (c =? 5760)
   || (8192 <=? c) && (c <=? 8202)
   || (c =? 8232) || (c =? 8233) || (c =? 8239) || (c =? 8287)
   || (c =? 12288))%N.

(** [s.split()]: maximal runs of non-whitespace. [cur] is the run being
    read, reversed; [None] between runs. *)
Fixpoint split_from (cur : option str) (s : str) : list str :=
  match s with
  | [] => match cur with Some w => [rev w] | None => [] end
  | c :: s' =>
    if is_space c then
      match cur with
      | Some w => rev w :: split_from None s'
      | None => split_from None s'
      end
    else
      split_from (Some (c :: match cur with Some w => w | None => [] end)) s'
  end.

Definition split (s : str) : list str := split_from None s.

Fixpoint lstrip (s : str) : str :=
  match s with
  | c :: s' => if is_space c then lstrip s' else s
  | [] => []
  end.

Definition rstrip (s : str) : str := rev (lstrip (rev s)).

(** [s.strip()] *)
Definition strip (s : str) : str := rstrip (lstrip s).

(** ** [s.split(sep)] for a non-empty separator *)

(** [skip] counts the code points of a separator occurrence that are still
    to be passed over; [cur] is the current piece, reversed. *)
Fixpoint split_on_from (sep : str) (skip : nat) (cur : str) (s : str)
  : list str :=
  match s with
  | [] => [rev cur]
  | c :: s' =>
    match skip with
    | S k => split_on_from sep k cur s'
    | O =>
      if startswith sep s
      then rev cur :: split_on_from sep (List.length sep - 1) [] s'
      else split_on_from sep 0 (c :: cur) s'
    end
  end.

Definition split_on (sep s : str) : list str := split_on_from sep 0 [] s.

(** [s.replace(c, "")] for a one-character [c] *)
Definition remove_char (c : N) (s : str) : str :=
  filter (fun x => negb (x =? c)%N) s.

(** [l[-1]] *)
Definition last_opt (A : Type) (l : list A) : option A :=
  match rev l with
  | x :: _ => Some x
  | [] => None
  end.

(** [" ".join(l)] *)
Fixpoint join_space (l : list str) : str :=
  match l with
  | [] => []
  | [x] => x
  | x :: l' => x ++ 32%N :: join_space l'
  end.

(** [str(n)] for an [int] *)
Definition of_Z (z : Z) : str :=
  bytes_of (NilEmpty.string_of_int (Z.to_int z)).

End Text.

Import Text.

(* ================================================================== *)
(** * Exceptions and results *)
(* ================================================================== *)

(** The builtin exception classes the program meets, and [UserClass] for a
    class defined by evaluated code: whether it derives from [Exception],
    and the class and text of the exception its [__str__] raises, if it
    raises. *)
Inductive exn_class :=
| Exception_ | ValueError | TypeError | KeyError | IndexError
| AttributeError | ZeroDivisionError | OverflowError | SyntaxError
| NameError | JSONDecodeError | UnicodeDecodeError | BrokenPipeError
| RecursionError
| SystemExit | KeyboardInterrupt
| UserClass (derives_Exception : bool) (str_raises : option (exn_class * str)).

(** [issubclass(c, Exception)]: what an [except Exception] clause catches.
    [SystemExit] and [KeyboardInterrupt] derive from [BaseException] only. *)
Definition is_Exception (c : exn_class) : bool :=
  match c with
  | SystemExit | KeyboardInterrupt => false
  | UserClass derives_Exception _ => derives_Exception
  | _ => true
  end.

(** A raised exception: its class and the text of [str(e)] (unused when
    the class' [__str__] raises). *)
Record exn := Exn { exn_cls : exn_class; exn_str : str }.

(** The outcome of running a piece of Python code. *)
Inductive result (A : Type) :=
| Return (a : A)
| Raise (e : exn).
Arguments Return {A} a.
Arguments Raise {A} e.

Definition bind {A B : Type} (r : result A) (k : A -> result B) : result B :=
  match r with
  | Return a => k a
  | Raise e => Raise e
  end.

Declare Scope py_scope.
Delimit Scope py_scope with py.
Notation "x <- c ;; k" := (bind c (fun x => k))
  (at level 61, c at next level, right associativity) : py_scope.

(** [str(e)]: the text, or the exception [__str__] raises. *)
Definition str_of (e : exn) : result str :=
  match exn_cls e with
  | UserClass _ (Some (cls, text)) => Raise (Exn cls text)
  | _ => Return (exn_str e)
  end.

(** [try: body except Exception as e: handler(e)] *)
Definition try_except_Exception {A : Type}
    (body : result A) (handler : exn -> result A) : result A :=
  match body with
  | Return a => Return a
  | Raise e => if is_Exception (exn_cls e) then handler e else Raise e
  end.

(* ================================================================== *)
(** * JSON values *)
(* ================================================================== *)

(** A Python [float] is an IEEE 754 binary64 number. *)
Definition float := spec_float.
Definition prec : Z := 53.
Definition emax : Z := 1024.

(** The Python values [json.loads] produces: [None], [bool], [int],
    [float], [str], [list] and [dict] (insertion-ordered, string keys). *)
Inductive json :=
| JNull
| JBool (b : bool)
| JInt (z : Z)
| JFloat (x : float)
| JStr (s : str)
| JArr (l : list json)
| JObj (kv : list (str * json)).

(** [d.get(key)] on the items of a dict *)
Fixpoint lookup (key : str) (kv : list (str * json)) : option json :=
  match kv with
  | [] => None
  | (k, v) :: kv' => if Text.eqb k key then Some v else lookup key kv'
  end.

Definition has_key (key : str) (kv : list (str * json)) : bool :=
  match lookup key kv with Some _ => true | None => false end.

(** [type(v).__name__] *)
Definition type_name (v : json) : str :=
  match v with
  | JNull => u "NoneType"
  | JBool _ => u "bool"
  | JInt _ => u "int"
  | JFloat _ => u "float"
  | JStr _ => u "str"
  | JArr _ => u "list"
  | JObj _ => u "dict"
  end.

(** [bool(v)] *)
Definition truthy (v : json) : bool :=
  match v with
  | JNull => false
  | JBool b => b
  | JInt z => negb (z =? 0)%Z
  | JFloat x =>
    match x with S754_zero _ => false | _ => true end
  | JStr s => match s with [] => false | _ => true end
  | JArr l => match l with [] => false | _ => true end
  | JObj kv => match kv with [] => false | _ => true end
  end.

(* ================================================================== *)
(** * The interpreter's builtins *)
(* ================================================================== *)

(** Builtins the program calls whose behaviour is fixed by the interpreter
    (Unicode tables, numeric parsing and printing, dynamic operators,
    hashing order, [eval]) rather than by this repository. *)
Class PyRuntime := {
  (** [s.lower()] *)
  lower : str -> str;
  (** [int(s)]; [None] when it raises [ValueError] *)
  py_int : str -> option Z;
  (** [float(s)]; [None] when it raises [ValueError], whose text is
      [py_float_error s] *)
  py_float : str -> option float;
  py_float_error : str -> str;
  (** [str(x)] for a float *)
  float_str : float -> str;
  (** [repr(v)] for a decoded JSON value *)
  py_repr : json -> str;
  (** the text [f"{eval(e)}"] produces, or the exception raised while
      evaluating [e] or formatting its value *)
  py_eval : str -> result str;
  (** the binary operators [a + b], [a / b], [a < b], [a > b] *)
  py_add : json -> json -> result json;
  py_truediv : json -> json -> result json;
  py_lt : json -> json -> result bool;
  py_gt : json -> json -> result bool;
  (** [list(set(l))] for hashable elements: the distinct elements of [l]
      in the interpreter's hash order *)
  py_list_set : list json -> list json
}.

(** [str(v)]: a [str] is its own text, everything else prints as its
    [repr]. *)
Definition py_str `{PyRuntime} (v : json) : str :=
  match v with
  | JStr s => s
  | _ => py_repr v
  end.

(** [key in v] for a string [key] *)
Definition py_contains (key : str) (v : json) : result bool :=
  match v with
  | JObj kv => Return (has_key key kv)
  | JArr l =>
    Return (existsb (fun x => match x with
                              | JStr s => Text.eqb s key
                              | _ => false
                              end) l)
  | JStr s => Return (contains key s)
  | _ =>
    Raise (Exn TypeError
             (u "argument of type '" ++ type_name v ++ u "' is not iterable"))
  end.

(** [v[key]] for a string [key] *)
Definition py_getitem `{PyRuntime} (v : json) (key : str) : result json :=
  match v with
  | JObj kv =>
    match lookup key kv with
    | Some x => Return x
    | None => Raise (Exn KeyError (py_repr (JStr key)))
    end
  | JArr _ =>
    Raise (Exn TypeError
             (u "list indices must be integers or slices, not str"))
  | JStr _ =>
    Raise (Exn TypeError (u "string indices must be integers, not 'str'"))
  | _ =>
    Raise (Exn TypeError
             (u "'" ++ type_name v ++ u "' object is not subscriptable"))
  end.

(* ================================================================== *)
(** * The transport client: [MCPClient] *)
(* ================================================================== *)

(** What one [stdout.readline()] of the child process yields, classified by
    what [.decode().strip()] and [json.loads] make of the bytes. *)
Inductive reply :=
| BadBytes (msg : str)   (** [.decode()] raises [UnicodeDecodeError] *)
| Blank                  (** empty after [.strip()]; so is [b""] at EOF *)
| BadJson (msg : str)    (** [json.loads] raises [JSONDecodeError] *)
| BadNumber (msg : str)  (** [json.loads] raises [ValueError]: an integer
                             literal beyond the interpreter's digit limit *)
| TooDeep (msg : str)    (** [json.loads] raises [RecursionError] *)
| Doc (v : json).        (** [json.loads] returns [v] *)

(** Why a write to the child fails once its stdin is no longer open: the
    child has gone ([BrokenPipeError]), or the client's end of the pipe
    has been closed ([ValueError]). *)
Inductive write_failure := BrokenPipe | ClosedFile.

Definition write_error (f : write_failure) : exn :=
  match f with
  | BrokenPipe => Exn BrokenPipeError (u "[Errno 32] Broken pipe")
  | ClosedFile => Exn ValueError (u "write to closed file")
  end.

(** The child process as the client sees it, created with pipes on stdin
    and stdout. [stdin_failure] tells how a write fails while [stdin_open]
    is false; [stdin_written] holds the request objects whose [json.dumps]
    line was written and flushed, oldest first; [stdout] holds the lines the
    child will answer with. *)
Record Popen := {
  stdin_open : bool;
  stdin_failure : write_failure;
  stdin_written : list json;
  stdout : list reply
}.

Record MCPClient := {
  process : Popen;
  request_id : Z
}.

Section Transport.
Context `{PyRuntime}.

(** [MCPClient.__init__] *)
Definition init (mcp_process : Popen) : MCPClient :=
  {| process := mcp_process; request_id := 0 |}.

(** The [request] dict built by [call_tool]. *)
Definition make_request (id : Z) (tool_name : str) (args : json) : json :=
  JObj [ (u "jsonrpc", JStr (u "2.0"));
         (u "id", JInt id);
         (u "method", JStr (u "tools/call"));
         (u "params", JObj [ (u "name", JStr tool_name);
                             (u "arguments", args) ]) ].

(** [stdin.write(line); stdin.flush()] *)
Definition write_flush (request : json) (p : Popen) : result unit * Popen :=
  if stdin_open p
  then (Return tt,
        {| stdin_open := true;
           stdin_failure := stdin_failure p;
           stdin_written := stdin_written p ++ [request];
           stdout := stdout p |})
  else (Raise (write_error (stdin_failure p)), p).

(** [stdout.readline()] *)
Definition readline (p : Popen) : reply * Popen :=
  match stdout p with
  | [] => (Blank, p)
  | r :: rest =>
    (r, {| stdin_open := stdin_open p;
           stdin_failure := stdin_failure p;
           stdin_written := stdin_written p;
           stdout := rest |})
  end.

(** The part of [call_tool] that inspects a decoded response. *)
Definition read_response (response : json) : result json :=
  (has_result <- py_contains (u "result") response;;
   if has_result then py_getitem response (u "result")
   else
     has_error <- py_contains (u "error") response;;
     if has_error then
       e <- py_getitem response (u "error");;
       Raise (Exn Exception_ (u "MCP Error: " ++ py_str e))
     else Return JNull)%py.

(** [MCPClient.call_tool]. The result is the returned value ([JNull] is
    [None]) or the raised exception, and the client after the call. *)
Definition call_tool (tool_name : str) (args : json) (self : MCPClient)
  : result json * MCPClient :=
  let id := (request_id self + 1)%Z in
  let request := make_request id tool_name args in
  match write_flush request (process self) with
  | (Raise e, p) => (Raise e, {| process := p; request_id := id |})
  | (Return _, p) =>
    let (response_line, p') := readline p in
    let self' := {| process := p'; request_id := id |} in
    match response_line with
    | BadBytes msg => (Raise (Exn UnicodeDecodeError msg), self')
    | Blank => (Return JNull, self')
    | BadJson msg => (Raise (Exn JSONDecodeError msg), self')
    | BadNumber msg => (Raise (Exn ValueError msg), self')
    | TooDeep msg => (Raise (Exn RecursionError msg), self')
    | Doc response => (read_response response, self')
    end
  end.

(** Consecutive calls on one client; the outcomes, oldest first. *)
Fixpoint run (calls : list (str * json)) (self : MCPClient)
  : list (result json) * MCPClient :=
  match calls with
  | [] => ([], self)
  | (tool_name, args) :: calls' =>
    let (r, self') := call_tool tool_name args self in
    let (rs, self'') := run calls' self' in
    (r :: rs, self'')
  end.

(** The [id] field of a request object. *)
Definition request_id_of (request : json) : option Z :=
  match request with
  | JObj kv =>
    match lookup (u "id") kv with
    | Some (JInt i) => Some i
    | _ => None
    end
  | _ => None
  end.

(** The ids of the requests written so far, oldest first. *)
Definition sent_ids (self : MCPClient) : list Z :=
  flat_map (fun r => match request_id_of r with
                     | Some i => [i]
                     | None => []
                     end)
           (stdin_written (process self)).

End Transport.

(* ================================================================== *)
(** * [json.dumps] *)
(* ================================================================== *)

Module Json.
Section Dumps.
Context `{PyRuntime}.

Definition hex_digit (n : N) : N :=
  if (n <? 10)%N then (48 + n)%N else (87 + n)%N.

(** [\uXXXX] *)
Definition u_escape (c : N) : str :=
  [92; 117; hex_digit ((c / 4096) mod 16); hex_digit ((c / 256) mod 16);
   hex_digit ((c / 16) mod 16); hex_digit (c mod 16)]%N.

Definition escape_char (ensure_ascii : bool) (c : N) : str :=
  (if c =? 34 then [92; 34]
   else if c =? 92 then [92; 92]
   else if c =? 10 then [92; 110]
   else if c =? 13 then [92; 114]
   else if c =? 9 then [92; 116]
   else if c =? 8 then [92; 98]
   else if c =? 12 then [92; 102]
   else if c <? 32 then u_escape c
   else if ensure_ascii && (126 <? c) then
     if c <? 65536 then u_escape c
     else
       let n := c - 65536 in
       u_escape (55296 + (n / 1024) mod 1024)
         ++ u_escape (56320 + n mod 1024)
   else [c])%N.

Definition dumps_str (ensure_ascii : bool) (s : str) : str :=
  34%N :: flat_map (escape_char ensure_ascii) s ++ [34%N].

Definition dumps_float (x : float) : str :=
  match x with
  | S754_nan => u "NaN"
  | S754_infinity false => u "Infinity"
  | S754_infinity true => u "-Infinity"
  | _ => float_str x
  end.

(** Items joined by [", "]. *)
Fixpoint join_comma (l : list str) : str :=
  match l with
  | [] => []
  | [x] => x
  | x :: l' => x ++ u ", " ++ join_comma l'
  end.

(** [json.dumps(v, ensure_ascii=ensure_ascii)] *)
Fixpoint dumps (ensure_ascii : bool) (v : json) : str :=
  match v with
  | JNull => u "null"
  | JBool true => u "true"
  | JBool false => u "false"
  | JInt z => of_Z z
  | JFloat x => dumps_float x
  | JStr s => dumps_str ensure_ascii s
  | JArr l =>
    u "[" ++ join_comma (map (dumps ensure_ascii) l) ++ u "]"
  | JObj kv =>
    u "{"
      ++ join_comma
           (map (fun '(k, x) =>
                   dumps_str ensure_ascii k ++ u ": " ++ dumps ensure_ascii x)
                kv)
      ++ u "}"
  end.

End Dumps.
End Json.

(* ================================================================== *)
(** * [app/agent.py]: the calculator tool *)
(* ================================================================== *)

Section Calculator.
Context `{PyRuntime}.

(** [float(n)] for a small [int] literal *)
Definition float_of_Z (z : Z) : float := binary_normalize prec emax z 0 false.

(** [float(s)] *)
Definition float_of (s : str) : result float :=
  match py_float s with
  | Some x => Return x
  | None => Raise (Exn ValueError (py_float_error s))
  end.

(** [eval(expression)] followed by [f"{expression} = {result}"] *)
Definition standard_calculation (expression : str) : result str :=
  (r <- py_eval expression;;
   Return (expression ++ u " = " ++ r))%py.

(** The [try] block of [calculator]. *)
Definition calculator_body (expression : str) : result str :=
  if contains (u "%") expression then
    match split_on (u " of ") expression with
    | [part0; part1] =>
      let percent_str := strip (remove_char 37 (strip part0)) in
      let amount_str := strip part1 in
      (percent <- float_of percent_str;;
       amount <- float_of amount_str;;
       let result :=
         SFmul prec emax (SFdiv prec emax percent (float_of_Z 100)) amount in
       Return (float_str percent ++ u "% of " ++ float_str amount
                 ++ u " = " ++ float_str result))%py
    | _ => standard_calculation expression
    end
  else standard_calculation expression.

(** [calculator]: the body under [except Exception as e]. *)
Definition calculator (expression : str) : result str :=
  try_except_Exception
    (calculator_body expression)
    (fun e =>
       (text <- str_of e;; Return (u "Error calculating: " ++ text))%py).

End Calculator.

(* ================================================================== *)
(** * [app/agent.py]: [process_user_query] *)
(* ================================================================== *)

Section Agent.
Context `{PyRuntime}.

(** ** The conditions of the [if]/[elif] chain, on [query_lower] *)

Definition asks_list_all (q : str) : bool :=
  contains (u "список") q || contains (u "все продукты") q
  || contains (u "show products") q.

Definition asks_category (q : str) : bool :=
  contains (u "категория") q || contains (u "category") q
  || contains (u "электроника") q.

Definition asks_statistics (q : str) : bool :=
  contains (u "статистика") q || contains (u "statistics") q
  || contains (u "средняя цена") q.

Definition asks_product (q : str) : bool :=
  contains (u "product") q || contains (u "товар") q || contains (u "id") q.

Definition asks_add (q : str) : bool :=
  contains (u "добавь") q || contains (u "add product") q
  || contains (u "новый") q.

Definition asks_discount (q : str) : bool :=
  contains (u "%") q || contains (u "скидка") q || contains (u "discount") q.

(** [mcp_client.call_tool(tool, args) if mcp_client else default] *)
Definition call_or (mcp_client : option MCPClient)
    (tool_name : str) (args default : json)
  : result json * option MCPClient :=
  match mcp_client with
  | Some c =>
    let (r, c') := call_tool tool_name args c in (r, Some c')
  | None => (Return default, None)
  end.

(** The [for i, word in enumerate(words)] loop of the product branch.
    [words] is the part of the list from position [i] on. The result is
    what the loop appended to [response_parts]. *)
Fixpoint product_loop (words : list str) (mcp_client : option MCPClient)
  : list str * option MCPClient :=
  match words with
  | [] => ([], mcp_client)
  | word :: rest =>
    match rest with
    | [] => ([], mcp_client)
    | next :: _ =>
      if Text.eqb word (u "id") then
        match py_int next with
        | None => product_loop rest mcp_client
        | Some product_id =>
          let (r, c') :=
            call_or mcp_client (u "get_product")
                    (JObj [(u "product_id", JInt product_id)]) (JObj []) in
          match r with
          | Return result =>
            ([u "Product " ++ of_Z product_id ++ u ": "
                ++ Json.dumps false result], c')
          | Raise _ => product_loop rest c'
          end
        end
      else product_loop rest mcp_client
    end
  end.

(** The [except Exception as e] clause of [process_user_query]. *)
Definition on_error (e : exn) : result (list str) :=
  (text <- str_of e;; Return [u "Error: " ++ text])%py.

(** The [try] statement: the parts appended to [response_parts]. *)
Definition response_parts (query_lower : str)
    (mcp_client : option MCPClient)
  : result (list str) * option MCPClient :=
  if asks_list_all query_lower then
    let (r, c') :=
      call_or mcp_client (u "list_products") (JObj [])
              (JObj [(u "products", JArr [])]) in
    (try_except_Exception
       (result <- r;;
        Return [u "Products: " ++ Json.dumps false result])%py
       on_error, c')
  else if asks_category query_lower then
    let category := u "Электроника" in
    let (r, c') :=
      call_or mcp_client (u "list_products")
              (JObj [(u "category", JStr category)])
              (JObj [(u "products", JArr [])]) in
    (try_except_Exception
       (result <- r;;
        Return [u "Products in " ++ category ++ u ": "
                  ++ Json.dumps false result])%py
       on_error, c')
  else if asks_statistics query_lower then
    let (r, c') :=
      call_or mcp_client (u "get_statistics") (JObj []) (JObj []) in
    (try_except_Exception
       (result <- r;;
        Return [u "Statistics: " ++ Json.dumps false result])%py
       on_error, c')
  else if asks_product query_lower then
    let (parts, c') := product_loop (split query_lower) mcp_client in
    (Return parts, c')
  else if asks_add query_lower then
    (Return [u "To add a product, please provide: name, price, category, and in_stock status."],
     mcp_client)
  else if asks_discount query_lower then
    (try_except_Exception
       (calc_result <- calculator (u "15% of 50000");;
        Return [u "Calculation: " ++ calc_result])%py
       on_error, mcp_client)
  else
    (Return [u "How can I help you with product management?"], mcp_client).

(** [process_user_query(query, mcp_client)]: the returned text (or the
    exception that escapes), and the client after the call. *)
Definition process_user_query (query : str) (mcp_client : option MCPClient)
  : result str * option MCPClient :=
  let query_lower := lower query in
  let (parts, c') := response_parts query_lower mcp_client in
  ((parts <- parts;; Return (join_space parts))%py, c').

End Agent.

(* ================================================================== *)
(** * [app/agent.py]: [MockLLM._generate] *)
(* ================================================================== *)

Module MockLLM.
Section Generate.
Context `{PyRuntime}.

Definition asks_list_all (m : str) : bool :=
  contains (u "список") m || contains (u "все продукты") m
  || contains (u "show products") m.

Definition asks_category (m : str) : bool :=
  contains (u "категория") m || contains (u "category") m
  || contains (u "электроника") m.

Definition asks_statistics (m : str) : bool :=
  contains (u "статистика") m || contains (u "statistics") m
  || contains (u "средняя цена") m.

Definition asks_product (m : str) : bool :=
  contains (u "product id") m || contains (u "товар") m
  || contains (u "найти") m.

Definition asks_add (m : str) : bool :=
  contains (u "добавь") m || contains (u "add") m || contains (u "новый") m.

Definition asks_calculation (m : str) : bool :=
  contains (u "%") m || contains (u "посчитай") m
  || contains (u "calculate") m || contains (u "discount") m.

(** [f"... [TOOL_USE: {tool_use}]"] *)
Definition with_tool_use (text : str) (tool_use : json) : str :=
  text ++ u " [TOOL_USE: " ++ Json.dumps true tool_use ++ u "]".

(** The loop that looks for the product id; [words] is the list from
    position [i] on. The result is the final value of [product_id]. *)
Fixpoint find_product_id (words : list str) : option Z :=
  match words with
  | [] => None
  | word :: rest =>
    match rest with
    | [] => None
    | next :: _ =>
      if Text.eqb word (u "id") || Text.eqb word (u "номер") then
        match py_int next with
        | Some product_id => Some product_id
        | None => find_product_id rest
        end
      else find_product_id rest
    end
  end.

(** [l[-1]] *)
Definition last_item (l : list str) : result str :=
  match last_opt l with
  | Some x => Return x
  | None => Raise (Exn IndexError (u "list index out of range"))
  end.

(** [l[1]] *)
Definition item1 (l : list str) : result str :=
  match l with
  | _ :: x :: _ => Return x
  | _ => Raise (Exn IndexError (u "list index out of range"))
  end.

(** The text assigned to [content] for the lowered last message. *)
Definition content_for (last_message : str) : result str :=
  if asks_list_all last_message then
    Return (with_tool_use (u "I'll get all products for you.")
              (JObj [(u "tool", JStr (u "list_products"));
                     (u "args", JObj [])]))
  else if asks_category last_message then
    let category :=
      if contains (u "электроника") last_message
      then u "Электроника" else u "Электроника" in
    Return (with_tool_use
              (u "Getting products in " ++ category ++ u " category.")
              (JObj [(u "tool", JStr (u "list_products"));
                     (u "args", JObj [(u "category", JStr category)])]))
  else if asks_statistics last_message then
    Return (with_tool_use (u "Getting product statistics.")
              (JObj [(u "tool", JStr (u "get_statistics"))]))
  else if asks_product last_message then
    match find_product_id (split last_message) with
    | Some product_id =>
      if (product_id =? 0)%Z then Return (u "Please specify a product ID.")
      else
        Return (with_tool_use
                  (u "Getting product with ID " ++ of_Z product_id ++ u ".")
                  (JObj [(u "tool", JStr (u "get_product"));
                         (u "args",
                          JObj [(u "product_id", JInt product_id)])]))
    | None => Return (u "Please specify a product ID.")
    end
  else if asks_add last_message then
    Return (u "I'll help you add a new product. Please provide name, price, and category.")
  else if asks_calculation last_message then
    if contains (u "%") last_message then
      match split_on (u "%") last_message with
      | [] => Return (u "I can help calculate discounts and prices.")
      | (part0 :: _) as parts =>
        (x <- last_item (split (strip part0));;
         part1 <- item1 parts;;
         y <- last_item (split (strip part1));;
         let expr := x ++ u "% of " ++ y in
         Return (with_tool_use (u "Calculating discount.")
                   (JObj [(u "tool", JStr (u "calculator"));
                          (u "args", JObj [(u "expression", JStr expr)])])))%py
      end
    else
      Return (u "I can help with calculations. Please specify the expression.")
  else
    Return (u "I'll help you with product management. What would you like to do?").

(** [MockLLM._generate(messages)], with each message given by its
    [content]; the result is the [content] of the generated message. *)
Definition _generate (messages : list str) : result str :=
  match last_opt messages with
  | None => Raise (Exn IndexError (u "list index out of range"))
  | Some content => content_for (lower content)
  end.

End Generate.
End MockLLM.

(* ================================================================== *)
(** * [app/agent.py]: [create_agent] and [run_agent] *)
(* ================================================================== *)

(** [AgentState]; the messages are given by their [content]. *)
Record AgentState := {
  messages : list str;
  query : str;
  response : option str
}.

Section RunAgent.
Context `{PyRuntime}.

(** [process_node]: [process_user_query] is called with the query alone,
    so [mcp_client] takes its default [None]. *)
Definition process_node (state : AgentState) : result AgentState :=
  (text <- fst (process_user_query (query state) None);;
   Return {| messages := messages state;
             query := query state;
             response := Some text |})%py.

(** [agent.invoke(initial_state)] for the graph [create_agent] builds:
    the entry point [process] followed by [END]. *)
Definition invoke (initial_state : AgentState) : result AgentState :=
  process_node initial_state.

(** [run_agent(query)]: the value under ["response"] in the final state
    ([None] is Python's [None]). *)
Definition run_agent (query : str) : result (option str) :=
  let initial_state :=
    {| messages := [query]; query := query; response := None |} in
  (final <- invoke initial_state;; Return (response final))%py.

End RunAgent.

(* ================================================================== *)
(** * [mcp_server/mcp_server.py] *)
(* ================================================================== *)

(** What [PRODUCTS_FILE] holds when it exists: a JSON array of products
    (the only documents [save_products] writes), or something [json.load]
    rejects with the given exception. *)
Inductive file_content :=
| Stored (products : list json)
| Corrupt (e : exn).

(** The server's mutable state. Python lists are objects: [heap] holds the
    contents of every list object created so far, a reference is an index
    into it, and the module global [products_data] is bound to a
    reference. *)
Record Server := {
  heap : list (list json);
  products_data : nat;
  products_file : option file_content
}.

Section McpServer.
Context `{PyRuntime}.

(** The module as imported: [products_data = []]. *)
Definition fresh (file : option file_content) : Server :=
  {| heap := [[]]; products_data := 0; products_file := file |}.

(** The contents of the list object [r]. *)
Definition deref (r : nat) (s : Server) : list json := nth r (heap s) [].

(** Replace the contents of the list object [r] (an in-place mutation). *)
Fixpoint set_nth (r : nat) (v : list json) (h : list (list json))
  : list (list json) :=
  match h, r with
  | [], _ => []
  | _ :: h', O => v :: h'
  | x :: h', S r' => x :: set_nth r' v h'
  end.

Definition mutate (r : nat) (v : list json) (s : Server) : Server :=
  {| heap := set_nth r v (heap s);
     products_data := products_data s;
     products_file := products_file s |}.

(** [load_products()]: returns a reference to the list bound to
    [products_data]; [json.load] creates a new list object. *)
Definition load_products (s : Server) : result nat * Server :=
  match deref (products_data s) s, products_file s with
  | [], Some (Stored products) =>
    let r := List.length (heap s) in
    (Return r,
     {| heap := heap s ++ [products];
        products_data := r;
        products_file := products_file s |})
  | [], Some (Corrupt e) => (Raise e, s)
  | _, _ => (Return (products_data s), s)
  end.

(** [save_products()]. The file is represented by the list it decodes
    to; a [json.dump] that fails while encoding a string is not
    represented (the one caller, [add_product], saves a list without
    strings). *)
Definition save_products (s : Server) : Server :=
  {| heap := heap s;
     products_data := products_data s;
     products_file := Some (Stored (deref (products_data s) s)) |}.

(** [max(gen)] after its first item: [item > maxitem] decides. *)
Fixpoint max_id_from (maxitem : json) (ps : list json) : result json :=
  match ps with
  | [] => Return maxitem
  | p :: ps' =>
    (item <- py_getitem p (u "id");;
     gt <- py_gt item maxitem;;
     max_id_from (if gt then item else maxitem) ps')%py
  end.

(** [get_next_product_id()] *)
Definition get_next_product_id (s : Server) : result json :=
  match deref (products_data s) s with
  | [] => Return (JInt 1)
  | p :: ps =>
    (first <- py_getitem p (u "id");;
     m <- max_id_from first ps;;
     py_add m (JInt 1))%py
  end.

(** [p.get(key, default)] *)
Definition py_get (p : json) (key : str) (default : json) : result json :=
  match p with
  | JObj kv =>
    Return match lookup key kv with Some v => v | None => default end
  | _ =>
    Raise (Exn AttributeError
             (u "'" ++ type_name p ++ u "' object has no attribute 'get'"))
  end.

(** [v.lower()] *)
Definition py_lower (v : json) : result str :=
  match v with
  | JStr s => Return (lower s)
  | _ =>
    Raise (Exn AttributeError
             (u "'" ++ type_name v ++ u "' object has no attribute 'lower'"))
  end.

(** [[p for p in products if p.get("category", "").lower() == category.lower()]] *)
Fixpoint filter_category (category : str) (products : list json)
  : result (list json) :=
  match products with
  | [] => Return []
  | p :: ps =>
    (c <- py_get p (u "category") (JStr []);;
     cl <- py_lower c;;
     rest <- filter_category category ps;;
     Return (if Text.eqb cl (lower category) then p :: rest else rest))%py
  end.

Definition len (l : list json) : json := JInt (Z.of_nat (List.length l)).

(** [list_products(category)] *)
Definition list_products (category : option str) (s : Server)
  : result json * Server :=
  let (r, s') := load_products s in
  ((products <- r;;
    let products := deref products s' in
    match category with
    | Some ((_ :: _) as category) =>
      filtered <- filter_category category products;;
      Return (JObj [ (u "products", JArr filtered);
                     (u "total", len filtered);
                     (u "category", JStr category) ])
    | _ =>
      Return (JObj [ (u "products", JArr products);
                     (u "total", len products) ])
    end)%py, s').

(** [float == int], compared exactly *)
Definition float_eq_Z (x : float) (z : Z) : bool :=
  match x with
  | S754_zero _ => (z =? 0)%Z
  | S754_finite sign m e =>
    let v := if sign then Z.neg m else Z.pos m in
    if (0 <=? e)%Z then (z =? v * 2 ^ e)%Z else (z * 2 ^ (- e) =? v)%Z
  | _ => false
  end.

(** [v == n] for an [int] [n] *)
Definition eq_int (v : json) (n : Z) : bool :=
  match v with
  | JInt z => (z =? n)%Z
  | JBool b => ((if b then 1 else 0) =? n)%Z
  | JFloat x => float_eq_Z x n
  | _ => false
  end.

(** The [for product in products] loop of [get_product]. *)
Fixpoint find_product (product_id : Z) (products : list json)
  : result json :=
  match products with
  | [] =>
    Raise (Exn ValueError
             (u "Product with ID " ++ of_Z product_id ++ u " not found"))
  | product :: rest =>
    (id <- py_getitem product (u "id");;
     if eq_int id product_id
     then Return (JObj [ (u "success", JBool true);
                         (u "product", product) ])
     else find_product product_id rest)%py
  end.

(** [get_product(product_id)] *)
Definition get_product (product_id : Z) (s : Server)
  : result json * Server :=
  let (r, s') := load_products s in
  ((products <- r;; find_product product_id (deref products s'))%py, s').

(** [add_product(name, price, category, in_stock)]. The local [products]
    is the reference [load_products] returned. *)
Definition add_product (name : str) (price : float) (category : str)
    (in_stock : bool) (s : Server) : result json * Server :=
  match load_products s with
  | (Raise e, s1) => (Raise e, s1)
  | (Return products, s1) =>
    match get_next_product_id s1 with
    | Raise e => (Raise e, s1)
    | Return id =>
      let new_product :=
        JObj [ (u "id", id); (u "name", JStr name);
               (u "price", JFloat price); (u "category", JStr category);
               (u "in_stock", JBool in_stock) ] in
      (* products.append(new_product) *)
      let s2 := mutate products (deref products s1 ++ [new_product]) s1 in
      (* products_data.clear() *)
      let s3 := mutate (products_data s2) [] s2 in
      (* products_data.extend(products) *)
      let s4 :=
        mutate (products_data s3)
               (deref (products_data s3) s3 ++ deref products s3) s3 in
      let s5 := save_products s4 in
      (Return (JObj [ (u "success", JBool true);
                      (u "product", new_product) ]), s5)
    end
  end.

(** [[p["price"] for p in products]] *)
Fixpoint prices_of (products : list json) : result (list json) :=
  match products with
  | [] => Return []
  | p :: ps =>
    (x <- py_getitem p (u "price");;
     xs <- prices_of ps;;
     Return (x :: xs))%py
  end.

Definition hashable (v : json) : bool :=
  match v with
  | JArr _ | JObj _ => false
  | _ => true
  end.

(** The items [set(...)] receives from
    [p.get("category", "Unknown") for p in products], each hashed as it
    arrives. *)
Fixpoint category_items (products : list json) : result (list json) :=
  match products with
  | [] => Return []
  | p :: ps =>
    (c <- py_get p (u "category") (JStr (u "Unknown"));;
     if hashable c then
       cs <- category_items ps;;
       Return (c :: cs)
     else
       Raise (Exn TypeError
                (u "unhashable type: '" ++ type_name c ++ u "'")))%py
  end.

(** [sum(1 for p in products if p.get("in_stock", False))] *)
Fixpoint count_in_stock (products : list json) : result Z :=
  match products with
  | [] => Return 0%Z
  | p :: ps =>
    (v <- py_get p (u "in_stock") (JBool false);;
     n <- count_in_stock ps;;
     Return (if truthy v then 1 + n else n)%Z)%py
  end.

(** [sum(l)]: [acc = 0; for x in l: acc = acc + x] *)
Fixpoint sum_from (acc : json) (l : list json) : result json :=
  match l with
  | [] => Return acc
  | x :: l' => (acc' <- py_add acc x;; sum_from acc' l')%py
  end.

(** [min(l)] after its first item: [item < minitem] decides. *)
Fixpoint min_from (minitem : json) (l : list json) : result json :=
  match l with
  | [] => Return minitem
  | item :: l' =>
    (lt <- py_lt item minitem;;
     min_from (if lt then item else minitem) l')%py
  end.

(** [max(l)] after its first item *)
Fixpoint max_from (maxitem : json) (l : list json) : result json :=
  match l with
  | [] => Return maxitem
  | item :: l' =>
    (gt <- py_gt item maxitem;;
     max_from (if gt then item else maxitem) l')%py
  end.

Definition empty_sequence {A : Type} (name : string) : result A :=
  Raise (Exn ValueError (u name ++ u "() arg is an empty sequence")).

(** The dict [get_statistics] returns for a non-empty [products]. *)
Definition statistics_of (products : list json) : result json :=
  (prices <- prices_of products;;
   items <- category_items products;;
   let categories := py_list_set items in
   in_stock_count <- count_in_stock products;;
   total <- sum_from (JInt 0) prices;;
   average_price <- py_truediv total (len prices);;
   lo <- match prices with
         | [] => empty_sequence "min"
         | x :: xs => min_from x xs
         end;;
   hi <- match prices with
         | [] => empty_sequence "max"
         | x :: xs => max_from x xs
         end;;
   Return (JObj [ (u "total_products", len products);
                  (u "average_price", average_price);
                  (u "in_stock_count", JInt in_stock_count);
                  (u "out_of_stock_count",
                   JInt (Z.of_nat (List.length products) - in_stock_count));
                  (u "categories", JArr categories);
                  (u "price_range",
                   JObj [ (u "min", lo); (u "max", hi) ]) ]))%py.

(** [get_statistics()] *)
Definition get_statistics (s : Server) : result json * Server :=
  let (r, s') := load_products s in
  ((products <- r;;
    match deref products s' with
    | [] =>
      Return (JObj [ (u "total_products", JInt 0);
                     (u "average_price", JInt 0);
                     (u "in_stock_count", JInt 0);
                     (u "categories", JArr []);
                     (u "price_range",
                      JObj [ (u "min", JInt 0); (u "max", JInt 0) ]) ])
    | products => statistics_of products
    end)%py, s').

End McpServer.

(* ================================================================== *)
(** * A reference runtime *)
(* ================================================================== *)

(** [RefPy] implements the builtins on the inputs the examples use and
    agrees with CPython 3.11 there:
    - [lower] on Basic Latin, Latin-1 Supplement and Cyrillic
      U+0400..U+045F;
    - [py_int] on ASCII digits, with sign, underscores and surrounding
      whitespace;
    - [py_float] on plain ASCII decimal literals (sign, digits, optional
      fraction), correctly rounded, and [float_str] on every float;
    - [py_repr] on values whose strings lie in the [lower] range;
    - the operators on [bool], [int] and [float] operands;
    - [py_list_set] lists distinct elements in order of first occurrence,
      one of the orders a [set] may produce;
    - [py_eval] on sums, differences and products of decimal integer
      literals, on the expression [__import__('sys').exit()], and on
      one-line text that is no Python expression at all, for which it gives
      CPython's [SyntaxError] "invalid syntax (<string>, line 1)".
    Outside these ranges it is a placeholder and its answers are not
    used. *)
Module RefPy.

Open Scope Z_scope.

(** ** [str.lower] *)

Definition lower_char (c : N) : N :=
  (if (65 <=? c) && (c <=? 90) then c + 32
   else if (192 <=? c) && (c <=? 222) && negb (c =? 215) then c + 32
   else if (1024 <=? c) && (c <=? 1039) then c + 80
   else if (1040 <=? c) && (c <=? 1071) then c + 32
   else c)%N.

Definition lower (s : str) : str := map lower_char s.

(** ** [int] *)

Definition digit_of (c : N) : option Z :=
  if ((48 <=? c) && (c <=? 57))%N then Some (Z.of_N c - 48) else None.

(** Digits with single underscores between them; [acc] is the value
    read so far and [after_digit] tells whether the last character was a
    digit. *)
Fixpoint digits_from (acc : Z) (after_digit : bool) (s : str) : option Z :=
  match s with
  | [] => if after_digit then Some acc else None
  | c :: s' =>
    match digit_of c with
    | Some d => digits_from (10 * acc + d) true s'
    | None =>
      if (c =? 95)%N && after_digit then digits_from acc false s' else None
    end
  end.

Definition signed (s : str) : bool * str :=
  match s with
  | 45%N :: s' => (true, s')
  | 43%N :: s' => (false, s')
  | _ => (false, s)
  end.

Definition py_int (s : str) : option Z :=
  let (neg, body) := signed (strip s) in
  match digits_from 0 false body with
  | Some n => Some (if neg then - n else n)
  | None => None
  end.

(** ** Floats: decimal input and shortest decimal output *)

(** The float nearest to [n / d], for [n >= 0] and [d > 0]. *)
Definition float_of_ratio (neg : bool) (n d : Z) : float :=
  match n, d with
  | Z.pos pn, Z.pos pd =>
    SFdiv prec emax (S754_finite neg pn 0) (S754_finite false pd 0)
  | _, _ => S754_zero neg
  end.

(** Plain digits; the value and the number of digits. *)
Fixpoint plain_digits (acc : Z) (count : Z) (s : str) : option (Z * Z) :=
  match s with
  | [] => Some (acc, count)
  | c :: s' =>
    match digit_of c with
    | Some d => plain_digits (10 * acc + d) (count + 1) s'
    | None => None
    end
  end.

Definition py_float (s : str) : option float :=
  let (neg, body) := signed (strip s) in
  match split_on [46%N] body with
  | [whole] =>
    match plain_digits 0 0 whole with
    | Some (n, count) =>
      if 0 <? count then Some (float_of_ratio neg n 1) else None
    | None => None
    end
  | [whole; frac] =>
    match plain_digits 0 0 whole, plain_digits 0 0 frac with
    | Some (n, c1), Some (f, c2) =>
      if 0 <? c1 + c2
      then Some (float_of_ratio neg (n * 10 ^ c2 + f) (10 ^ c2))
      else None
    | _, _ => None
    end
  | _ => None
  end.

(** [n / d] against [10 ^ k]: the largest [k] with [10 ^ k <= n / d]. *)
Fixpoint scale_down (fuel : nat) (n d k : Z) : Z :=
  match fuel with
  | O => k
  | S fuel' =>
    if n <? 10 * d then k else scale_down fuel' n (10 * d) (k + 1)
  end.

Fixpoint scale_up (fuel : nat) (n d k : Z) : Z :=
  match fuel with
  | O => k
  | S fuel' => if d <=? n then k else scale_up fuel' (10 * n) d (k - 1)
  end.

Definition decimal_exponent (n d : Z) : Z :=
  if d <=? n then scale_down 400 n d 0 else scale_up 400 n d 0.

(** [c * 10 ^ k] as a fraction *)
Definition times_pow10 (c k : Z) : Z * Z :=
  if 0 <=? k then (c * 10 ^ k, 1) else (c, 10 ^ (- k)).

Definition same_float (x y : float) : bool :=
  match x, y with
  | S754_finite _ mx ex, S754_finite _ my ey =>
    (Z.pos mx =? Z.pos my) && (ex =? ey)
  | _, _ => false
  end.

(** The [p]-digit decimal [c * 10 ^ k] nearest to [n / d] among those
    that read back as [x], if there is one. *)
Definition candidate (x : float) (n d e10 p : Z) : option (Z * Z) :=
  let k := e10 - p + 1 in
  let (sn, sd) := if 0 <=? k then (n, d * 10 ^ k) else (n * 10 ^ (- k), d) in
  let below := sn / sd in
  let above := below + 1 in
  let reads_back c :=
    let (cn, cd) := times_pow10 c k in
    same_float (float_of_ratio false cn cd) x in
  let below_ok := (0 <? below) && reads_back below in
  let above_ok := reads_back above in
  let below_nearer := 2 * (sn - below * sd) <=? sd in
  if below_ok && (below_nearer || negb above_ok) then Some (below, k)
  else if above_ok then Some (above, k)
  else None.

Fixpoint shortest (x : float) (n d e10 : Z) (fuel : nat) (p : Z)
  : Z * Z :=
  match fuel with
  | O => (0, 0)
  | S fuel' =>
    match candidate x n d e10 p with
    | Some r => r
    | None => shortest x n d e10 fuel' (p + 1)
    end
  end.

(** Drop trailing zeros of the digit string [c], raising [k]. *)
Fixpoint trim (fuel : nat) (c k : Z) : Z * Z :=
  match fuel with
  | O => (c, k)
  | S fuel' =>
    if (c mod 10 =? 0) && negb (c =? 0) then trim fuel' (c / 10) (k + 1)
    else (c, k)
  end.

Definition zeros (n : Z) : str := repeat 48%N (Z.to_nat n).

(** The [repr] layout of the digits [ds] with the decimal point after
    [decpt] of them. *)
Definition layout (ds : str) (decpt : Z) : str :=
  let nd := Z.of_nat (List.length ds) in
  if (decpt <? -3) || (16 <? decpt) then
    let e := decpt - 1 in
    let mant :=
      match ds with
      | [] => []
      | c :: [] => [c]
      | c :: rest => c :: 46%N :: rest
      end in
    let es := of_Z (Z.abs e) in
    mant ++ [101%N; if e <? 0 then 45%N else 43%N]
      ++ (if Z.abs e <? 10 then [48%N] else []) ++ es
  else if decpt <=? 0 then u "0." ++ zeros (- decpt) ++ ds
  else if nd <=? decpt then ds ++ zeros (decpt - nd) ++ u ".0"
  else firstn (Z.to_nat decpt) ds ++ 46%N :: skipn (Z.to_nat decpt) ds.

Definition float_str (x : float) : str :=
  match x with
  | S754_zero neg => if neg then u "-0.0" else u "0.0"
  | S754_infinity neg => if neg then u "-inf" else u "inf"
  | S754_nan => u "nan"
  | S754_finite neg m e =>
    let (n, d) := if 0 <=? e then (Z.pos m * 2 ^ e, 1)
                  else (Z.pos m, 2 ^ (- e)) in
    let e10 := decimal_exponent n d in
    let (c0, k0) := shortest x n d e10 17 1 in
    let (c, k) := trim 20 c0 k0 in
    let ds := of_Z c in
    (if neg then [45%N] else [])
      ++ layout ds (k + Z.of_nat (List.length ds))
  end.

(** ** [repr] *)

Definition x_escape (c : N) : str :=
  [92; 120; Json.hex_digit ((c / 16) mod 16); Json.hex_digit (c mod 16)]%N.

Definition repr_char (quote c : N) : str :=
  (if (c =? quote) || (c =? 92) then [92; c]
   else if c =? 10 then [92; 110]
   else if c =? 13 then [92; 114]
   else if c =? 9 then [92; 116]
   else if (c <? 32) || (127 <=? c) && (c <=? 160) || (c =? 173)
   then x_escape c
   else [c])%N.

Definition repr_str (s : str) : str :=
  let quote :=
    if existsb (N.eqb 39) s && negb (existsb (N.eqb 34) s)
    then 34%N else 39%N in
  quote :: flat_map (repr_char quote) s ++ [quote].

Fixpoint py_repr (v : json) : str :=
  match v with
  | JNull => u "None"
  | JBool true => u "True"
  | JBool false => u "False"
  | JInt z => of_Z z
  | JFloat x => float_str x
  | JStr s => repr_str s
  | JArr l => u "[" ++ Json.join_comma (map py_repr l) ++ u "]"
  | JObj kv =>
    u "{"
      ++ Json.join_comma
           (map (fun '(k, x) => repr_str k ++ u ": " ++ py_repr x) kv)
      ++ u "}"
  end.

(** ** Arithmetic and comparison of numbers *)

Inductive num := NInt (z : Z) | NFloat (x : float).

Definition as_num (v : json) : option num :=
  match v with
  | JBool b => Some (NInt (if b then 1 else 0))
  | JInt z => Some (NInt z)
  | JFloat x => Some (NFloat x)
  | _ => None
  end.

Definition to_float (n : num) : result float :=
  match n with
  | NFloat x => Return x
  | NInt z =>
    match float_of_Z z with
    | S754_infinity _ =>
      Raise (Exn OverflowError (u "int too large to convert to float"))
    | x => Return x
    end
  end.

Definition unsupported {A : Type} (op : string) (a b : json) : result A :=
  Raise (Exn TypeError
           (u "unsupported operand type(s) for " ++ u op ++ u ": '"
              ++ type_name a ++ u "' and '" ++ type_name b ++ u "'")).

Definition py_add (a b : json) : result json :=
  match as_num a, as_num b with
  | Some (NInt x), Some (NInt y) => Return (JInt (x + y))
  | Some x, Some y =>
    (fx <- to_float x;; fy <- to_float y;;
     Return (JFloat (SFadd prec emax fx fy)))%py
  | _, _ => unsupported "+" a b
  end.

Definition py_truediv (a b : json) : result json :=
  match as_num a, as_num b with
  | Some (NInt x), Some (NInt y) =>
    if y =? 0 then Raise (Exn ZeroDivisionError (u "division by zero"))
    else
      match float_of_ratio (xorb (x <? 0) (y <? 0)) (Z.abs x) (Z.abs y) with
      | S754_infinity _ =>
        Raise (Exn OverflowError
                 (u "integer division result too large for a float"))
      | q => Return (JFloat q)
      end
  | Some x, Some y =>
    (fx <- to_float x;; fy <- to_float y;;
     match fy with
     | S754_zero _ =>
       Raise (Exn ZeroDivisionError (u "float division by zero"))
     | _ => Return (JFloat (SFdiv prec emax fx fy))
     end)%py
  | _, _ => unsupported "/" a b
  end.

(** An [int] against a [float], compared exactly. *)
Definition compare_Z_float (z : Z) (x : float) : option comparison :=
  match x with
  | S754_nan => None
  | S754_infinity neg => Some (if neg then Gt else Lt)
  | S754_zero _ => Some (z ?= 0)
  | S754_finite neg m e =>
    let v := if neg then Z.neg m else Z.pos m in
    Some (if 0 <=? e then z ?= v * 2 ^ e else z * 2 ^ (- e) ?= v)
  end.

Definition compare_num (a b : num) : option comparison :=
  match a, b with
  | NInt x, NInt y => Some (x ?= y)
  | NFloat x, NFloat y => SFcompare x y
  | NInt x, NFloat y => compare_Z_float x y
  | NFloat x, NInt y =>
    match compare_Z_float y x with
    | Some c => Some (CompOpp c)
    | None => None
    end
  end.

Definition not_ordered {A : Type} (op : string) (a b : json) : result A :=
  Raise (Exn TypeError
           (u "'" ++ u op ++ u "' not supported between instances of '"
              ++ type_name a ++ u "' and '" ++ type_name b ++ u "'")).

Definition py_lt (a b : json) : result bool :=
  match as_num a, as_num b with
  | Some x, Some y =>
    Return match compare_num x y with Some Lt => true | _ => false end
  | _, _ => not_ordered "<" a b
  end.

Definition py_gt (a b : json) : result bool :=
  match as_num a, as_num b with
  | Some x, Some y =>
    Return match compare_num x y with Some Gt => true | _ => false end
  | _, _ => not_ordered ">" a b
  end.

(** ** [list(set(l))] *)

Definition same_key (a b : json) : bool :=
  match as_num a, as_num b with
  | Some x, Some y =>
    match compare_num x y with Some Eq => true | _ => false end
  | None, None =>
    match a, b with
    | JStr s, JStr t => Text.eqb s t
    | JNull, JNull => true
    | _, _ => false
    end
  | _, _ => false
  end.

Fixpoint distinct (seen : list json) (l : list json) : list json :=
  match l with
  | [] => []
  | x :: l' =>
    if existsb (same_key x) seen then distinct seen l'
    else x :: distinct (x :: seen) l'
  end.

Definition py_list_set (l : list json) : list json := distinct [] l.

(** ** [eval] on integer arithmetic *)

Inductive token := TNum (n : Z) | TPlus | TMinus | TStar.

(** [lit] holds the digits of the literal being read, reversed. *)
Definition close_literal (lit : str) : option (list token) :=
  match rev lit with
  | [] => Some []
  | [c] => match digit_of c with Some d => Some [TNum d] | None => None end
  | 48%N :: _ => None
  | ds => match digits_from 0 false ds with
          | Some n => Some [TNum n]
          | None => None
          end
  end.

Fixpoint tokens_from (lit : str) (s : str) : option (list token) :=
  match s with
  | [] => close_literal lit
  | c :: s' =>
    match digit_of c with
    | Some _ => tokens_from (c :: lit) s'
    | None =>
      let op :=
        (if c =? 32 then Some []
         else if c =? 43 then Some [TPlus]
         else if c =? 45 then Some [TMinus]
         else if c =? 42 then Some [TStar]
         else None)%N in
      match close_literal lit, op, tokens_from [] s' with
      | Some a, Some b, Some r => Some (a ++ b ++ r)
      | _, _, _ => None
      end
    end
  end.

(** After a number: [acc] sums the finished terms, [sgn * prod] is the
    term being multiplied. *)
Fixpoint value_from (acc sgn prod : Z) (ts : list token) : option Z :=
  match ts with
  | [] => Some (acc + sgn * prod)
  | TPlus :: TNum n :: r => value_from (acc + sgn * prod) 1 n r
  | TMinus :: TNum n :: r => value_from (acc + sgn * prod) (-1) n r
  | TStar :: TNum n :: r => value_from acc sgn (prod * n) r
  | _ => None
  end.

Definition arithmetic (s : str) : option Z :=
  match tokens_from [] s with
  | Some (TNum n :: ts) => value_from 0 1 n ts
  | _ => None
  end.

Definition py_eval (expression : str) : result str :=
  if Text.eqb expression (u "__import__('sys').exit()")
  then Raise (Exn SystemExit [])
  else
    match arithmetic expression with
    | Some z => Return (of_Z z)
    | None => Raise (Exn SyntaxError (u "invalid syntax (<string>, line 1)"))
    end.

Definition py_float_error (s : str) : str :=
  u "could not convert string to float: " ++ repr_str s.

End RefPy.

#[export] Instance RefPy_runtime : PyRuntime := {|
  lower := RefPy.lower;
  py_int := RefPy.py_int;
  py_float := RefPy.py_float;
  py_float_error := RefPy.py_float_error;
  float_str := RefPy.float_str;
  py_repr := RefPy.py_repr;
  py_eval := RefPy.py_eval;
  py_add := RefPy.py_add;
  py_truediv := RefPy.py_truediv;
  py_lt := RefPy.py_lt;
  py_gt := RefPy.py_gt;
  py_list_set := RefPy.py_list_set
|}.

(* ================================================================== *)
(** * Vocabulary of the properties *)
(* ================================================================== *)

Section Vocabulary.
Context `{PyRuntime}.

(** The line the next [readline()] yields. *)
Definition next_line (p : Popen) : reply := fst (readline p).

(** The ids allocated by consecutive calls, oldest first. *)
Fixpoint ids_used (calls : list (str * json)) (self : MCPClient) : list Z :=
  match calls with
  | [] => []
  | (tool_name, args) :: calls' =>
    let self' := snd (call_tool tool_name args self) in
    request_id self' :: ids_used calls' self'
  end.

(** The text a tool branch of [process_user_query] produces from the
    outcome of its call. *)
Definition rendered (label : str) (outcome : result json) : str :=
  match outcome with
  | Return result => label ++ Json.dumps false result
  | Raise e => u "Error: " ++ exn_str e
  end.

(** No word accepted by [marker] is followed by a word [int] parses. *)
Fixpoint no_int_after (marker : str -> bool) (words : list str) : Prop :=
  match words with
  | [] => True
  | word :: rest =>
    match rest with
    | [] => True
    | next :: _ =>
      (marker word = true -> py_int next = None)
      /\ no_int_after marker rest
    end
  end.

(** The marker word of [process_user_query]'s loop. *)
Definition is_id (word : str) : bool := Text.eqb word (u "id").

(** The marker words of [MockLLM._generate]'s loop. *)
Definition is_id_or_nomer (word : str) : bool :=
  Text.eqb word (u "id") || Text.eqb word (u "номер").

(** The catalog a tool sees: the contents of the list [load_products()]
    returns, or the exception it raises. *)
Definition catalog (s : Server) : result (list json) :=
  let (r, s') := load_products s in
  (products <- r;; Return (deref products s'))%py.

(** [s'] shows the same products file and the same catalog as [s]. *)
Definition untouched (s s' : Server) : Prop :=
  products_file s' = products_file s /\ catalog s' = catalog s.

End Vocabulary.

(** A child that answers the first request with a response whose id is 99. *)
Definition stale_reply : json :=
  JObj [ (u "jsonrpc", JStr (u "2.0")); (u "id", JInt 99);
         (u "result", JObj [ (u "products", JArr []); (u "total", JInt 0) ]) ].

Definition stale_child : Popen :=
  {| stdin_open := true; stdin_failure := BrokenPipe; stdin_written := [];
     stdout := [Doc stale_reply] |}.

(** A child that has closed its stdout without answering. *)
Definition silent_child : Popen :=
  {| stdin_open := true; stdin_failure := BrokenPipe; stdin_written := [];
     stdout := [] |}.

(** A child that answers its first request with [response]. *)
Definition answering (response : json) : Popen :=
  {| stdin_open := true; stdin_failure := BrokenPipe; stdin_written := [];
     stdout := [Doc response] |}.

(** A catalog of three products. *)
Definition sample_product (id : Z) (category : string) (price : Z)
    (in_stock : bool) : json :=
  JObj [ (u "id", JInt id); (u "name", JStr (u "item"));
         (u "price", JInt price); (u "category", JStr (u category));
         (u "in_stock", JBool in_stock) ].

Definition sample_catalog : list json :=
  [ sample_product 1 "Books" 10 true;
    sample_product 2 "Toys" 25 false;
    sample_product 3 "Books" 40 true ].

(** The phrases of the first rule of both routers. *)
Definition list_everything_phrases : list str :=
  [u "список"; u "все продукты"; u "show products"].

(** The phrases of the second rule of both routers. *)
Definition category_phrases : list str :=
  [u "категория"; u "category"; u "электроника"].

(** [text] contains one of [phrases], with anything around it. *)
Definition mentions (phrases : list str) (text : str) : Prop :=
  exists phrase pre post,
    In phrase phrases /\ text = pre ++ phrase ++ post.

(* ================================================================== *)
(** * Vocabulary of the further properties *)
(* ================================================================== *)

(** The phrases of the third rule of both routers. *)
Definition statistics_phrases : list str :=
  [u "статистика"; u "statistics"; u "средняя цена"].

(** [p] is a dict whose ["id"] is the int [i]. *)
Definition has_int_id (p : json) (i : Z) : Prop :=
  exists kv, p = JObj kv /\ lookup (u "id") kv = Some (JInt i).

(** [ids] are the int ids of [products], in order. *)
Definition int_ids (products : list json) (ids : list Z) : Prop :=
  Forall2 has_int_id products ids.

(** The text [list_products] compares for [p]: the string under
    ["category"], or [""] when a dict has no such key. *)
Definition category_text (p : json) : option str :=
  match p with
  | JObj kv =>
    match lookup (u "category") kv with
    | Some (JStr c) => Some c
    | Some _ => None
    | None => Some []
    end
  | _ => None
  end.

(** [p] is a dict; [flag] is the truth value of its ["in_stock"] entry
    ([False] when it has none). *)
Definition stock_flag (p : json) : option bool :=
  match p with
  | JObj kv =>
    Some match lookup (u "in_stock") kv with
         | Some v => truthy v
         | None => false
         end
  | _ => None
  end.

(** The runtime [R] with [eval] replaced by [ev]. *)
Definition with_eval (R : PyRuntime) (ev : str -> result str) : PyRuntime :=
  {| lower := @lower R;
     py_int := @py_int R;
     py_float := @py_float R;
     py_float_error := @py_float_error R;
     float_str := @float_str R;
     py_repr := @py_repr R;
     py_eval := ev;
     py_add := @py_add R;
     py_truediv := @py_truediv R;
     py_lt := @py_lt R;
     py_gt := @py_gt R;
     py_list_set := @py_list_set R |}.

(** [p] counts as in stock for [get_statistics]. *)
Definition in_stock (p : json) : bool :=
  match stock_flag p with Some true => true | _ => false end.

Section FurtherVocabulary.
Context `{PyRuntime}.

(** What [call_tool] makes of one line it has read. *)
Definition line_outcome (line : reply) : result json :=
  match line with
  | BadBytes msg => Raise (Exn UnicodeDecodeError msg)
  | Blank => Return JNull
  | BadJson msg => Raise (Exn JSONDecodeError msg)
  | BadNumber msg => Raise (Exn ValueError msg)
  | TooDeep msg => Raise (Exn RecursionError msg)
  | Doc response => read_response response
  end.

(** The lines [n] consecutive [readline()] calls yield: the pending ones,
    then EOF. *)
Definition lines_read (n : nat) (p : Popen) : list reply :=
  firstn n (stdout p ++ repeat Blank n).

(** The runtime adds 1 to an int and orders ints as Python does. *)
Definition int_arithmetic : Prop :=
  (forall a b, py_gt (JInt a) (JInt b) = Return (a >? b)%Z)
  /\ (forall a, py_add (JInt a) (JInt 1) = Return (JInt (a + 1))).

(** The product dict [add_product] builds. *)
Definition new_product (id : json) (name : str) (price : float)
    (category : str) (in_stock : bool) : json :=
  JObj [ (u "id", id); (u "name", JStr name); (u "price", JFloat price);
         (u "category", JStr category); (u "in_stock", JBool in_stock) ].

(** The dict [add_product] and [get_product] return around a product. *)
Definition success (product : json) : json :=
  JObj [ (u "success", JBool true); (u "product", product) ].

(** The products [list_products] keeps for [category]. *)
Definition in_category (category : str) (p : json) : bool :=
  match category_text p with
  | Some c => Text.eqb (lower c) (lower category)
  | None => false
  end.

End FurtherVocabulary.

(* ================================================================== *)
(** * Properties of the transport client *)
(* ================================================================== *)

Section TransportFacts.
Context `{PyRuntime}.

Lemma request_id_of_make_request id tool_name args :
  request_id_of (make_request id tool_name args) = Some id.
Proof. reflexivity. Qed.

(** Every call advances the counter by one, whatever its outcome. *)
Lemma call_tool_request_id tool_name args self :
  request_id (snd (call_tool tool_name args self)) = (request_id self + 1)%Z.
Proof.
  unfold call_tool, write_flush, readline.
  destruct (stdin_open (process self)); [|reflexivity].
  cbn [stdout]. destruct (stdout (process self)) as [|[] ?]; reflexivity.
Qed.

Lemma call_tool_stdin_open tool_name args self :
  stdin_open (process (snd (call_tool tool_name args self)))
  = stdin_open (process self).
Proof.
  unfold call_tool, write_flush, readline.
  destruct (stdin_open (process self)) eqn:E; [|exact E].
  cbn [stdout]. destruct (stdout (process self)) as [|[] ?]; reflexivity.
Qed.

(** What a call leaves on the child's stdin. *)
Lemma call_tool_stdin_written tool_name args self :
  stdin_written (process (snd (call_tool tool_name args self)))
  = stdin_written (process self)
      ++ (if stdin_open (process self)
          then [make_request (request_id self + 1) tool_name args]
          else []).
Proof.
  unfold call_tool, write_flush, readline.
  destruct (stdin_open (process self)).
  - cbn [stdout]. destruct (stdout (process self)) as [|[] ?]; reflexivity.
  - cbn. now rewrite app_nil_r.
Qed.

Lemma call_tool_sent_ids tool_name args self :
  sent_ids (snd (call_tool tool_name args self))
  = sent_ids self
      ++ (if stdin_open (process self) then [(request_id self + 1)%Z]
          else []).
Proof.
  unfold sent_ids. rewrite call_tool_stdin_written, flat_map_app.
  destruct (stdin_open (process self)); reflexivity.
Qed.

Lemma run_snd_cons tool_name args calls self :
  snd (run ((tool_name, args) :: calls) self)
  = snd (run calls (snd (call_tool tool_name args self))).
Proof.
  cbn [run]. destruct (call_tool tool_name args self) as [r self'].
  cbn [snd]. now destruct (run calls self').
Qed.

Lemma ids_used_from calls : forall self,
  ids_used calls self
  = map (fun k => (request_id self + Z.of_nat k)%Z)
        (seq 1 (List.length calls)).
Proof.
  induction calls as [|[tool_name args] calls IH]; intros self.
  - reflexivity.
  - cbn [ids_used List.length seq map].
    rewrite IH, call_tool_request_id.
    rewrite <- (seq_shift (List.length calls) 1), map_map.
    f_equal. apply map_ext. intros k. lia.
Qed.

Lemma run_request_id calls : forall self,
  request_id (snd (run calls self))
  = (request_id self + Z.of_nat (List.length calls))%Z.
Proof.
  induction calls as [|[tool_name args] calls IH]; intros self.
  - cbn. lia.
  - rewrite run_snd_cons, IH, call_tool_request_id.
    cbn [List.length]. lia.
Qed.

Lemma run_sent_ids calls : forall self,
  sent_ids (snd (run calls self))
  = sent_ids self
      ++ (if stdin_open (process self) then ids_used calls self else []).
Proof.
  induction calls as [|[tool_name args] calls IH]; intros self.
  - cbn [run snd ids_used]. destruct (stdin_open _); now rewrite app_nil_r.
  - rewrite run_snd_cons, IH, call_tool_sent_ids, call_tool_stdin_open.
    cbn [ids_used]. rewrite call_tool_request_id.
    destruct (stdin_open (process self)); rewrite <- app_assoc; reflexivity.
Qed.

Lemma increasing_from n : forall base start,
  StronglySorted Z.lt
    (map (fun k => (base + Z.of_nat k)%Z) (seq start n)).
Proof.
  induction n as [|n IH]; intros base start; cbn [seq map].
  - constructor.
  - constructor; [apply IH|].
    apply Forall_forall. intros x Hx.
    apply in_map_iff in Hx. destruct Hx as [k [<- Hk]].
    apply in_seq in Hk. lia.
Qed.

(** What [call_tool] makes of one line once the request is written. *)
Lemma call_tool_outcome tool_name args self :
  stdin_open (process self) = true ->
  fst (call_tool tool_name args self)
  = match next_line (process self) with
    | BadBytes msg => Raise (Exn UnicodeDecodeError msg)
    | Blank => Return JNull
    | BadJson msg => Raise (Exn JSONDecodeError msg)
    | BadNumber msg => Raise (Exn ValueError msg)
    | TooDeep msg => Raise (Exn RecursionError msg)
    | Doc response => read_response response
    end.
Proof.
  intros Hopen. unfold call_tool, write_flush, next_line, readline.
  rewrite Hopen. cbn [stdout].
  destruct (stdout (process self)) as [|[] ?]; reflexivity.
Qed.

Lemma read_response_object kv :
  read_response (JObj kv)
  = match lookup (u "result") kv with
    | Some v => Return v
    | None =>
      match lookup (u "error") kv with
      | Some e => Raise (Exn Exception_ (u "MCP Error: " ++ py_str e))
      | None => Return JNull
      end
    end.
Proof.
  unfold read_response, py_contains, py_getitem, has_key. cbn [bind].
  destruct (lookup (u "result") kv); [reflexivity|]. cbn [bind].
  destruct (lookup (u "error") kv); reflexivity.
Qed.

End TransportFacts.

(** C1, as stated, fails: the first call of a new client sends id 1, reads a
    response whose id is 99, and returns that response's result. *)
Lemma call_tool_returns_result_of_other_id :
  let outcome := call_tool (u "list_products") (JObj []) (init stale_child) in
  sent_ids (snd outcome) = [1%Z]
  /\ next_line stale_child = Doc stale_reply
  /\ request_id_of stale_reply = Some 99%Z
  /\ fst outcome
     = Return (JObj [ (u "products", JArr []); (u "total", JInt 0) ]).
Proof. vm_compute. repeat split; reflexivity. Qed.

(** C1, amended: when the line read decodes to an object, [call_tool]
    returns the value under ["result"] if that key is present, whatever id
    the response carries; the response's id is never compared with the id
    sent. Without ["result"], an ["error"] entry raises
    [Exception("MCP Error: ...")], and an object with neither gives [None]. *)
Theorem call_tool_result_regardless_of_id :
  forall `{PyRuntime} tool_name args self kv,
    stdin_open (process self) = true ->
    next_line (process self) = Doc (JObj kv) ->
    fst (call_tool tool_name args self)
    = match lookup (u "result") kv with
      | Some v => Return v
      | None =>
        match lookup (u "error") kv with
        | Some e => Raise (Exn Exception_ (u "MCP Error: " ++ py_str e))
        | None => Return JNull
        end
      end.
Proof.
  intros R tool_name args self kv Hopen Hline.
  rewrite call_tool_outcome by exact Hopen.
  rewrite Hline. apply read_response_object.
Qed.

Lemma call_tool_result_regardless_of_id_witness :
  stdin_open (process (init stale_child)) = true
  /\ next_line (process (init stale_child))
     = Doc (JObj [ (u "jsonrpc", JStr (u "2.0")); (u "id", JInt 99);
                   (u "result",
                    JObj [ (u "products", JArr []); (u "total", JInt 0) ]) ])
  /\ fst (call_tool (u "list_products") (JObj []) (init stale_child))
     = Return (JObj [ (u "products", JArr []); (u "total", JInt 0) ]).
Proof.
  split; [reflexivity|]. split; [reflexivity|].
  exact (call_tool_result_regardless_of_id
           (u "list_products") (JObj []) (init stale_child)
           (kv := [ (u "jsonrpc", JStr (u "2.0")); (u "id", JInt 99);
                    (u "result",
                     JObj [ (u "products", JArr []); (u "total", JInt 0) ]) ])
           eq_refl eq_refl).
Defined.

(** C2, as stated, fails: on a missing response line the call returns
    [None] to the caller instead of raising. *)
Lemma call_tool_no_response_returns_None :
  next_line silent_child = Blank
  /\ fst (call_tool (u "get_statistics") (JObj []) (init silent_child))
     = Return JNull.
Proof. split; reflexivity. Qed.

(** C2, amended: a call writes its request exactly once. If the line read
    is empty or missing the call returns [None]; if the line cannot be
    decoded the decoder's exception ([UnicodeDecodeError] from [.decode()],
    [JSONDecodeError] from [json.loads]) reaches the caller. *)
Theorem call_tool_unusable_line :
  forall `{PyRuntime} tool_name args self,
    stdin_open (process self) = true ->
    let outcome := call_tool tool_name args self in
    stdin_written (process (snd outcome))
    = stdin_written (process self)
        ++ [make_request (request_id self + 1) tool_name args]
    /\ (next_line (process self) = Blank -> fst outcome = Return JNull)
    /\ (forall msg, next_line (process self) = BadJson msg ->
                    fst outcome = Raise (Exn JSONDecodeError msg))
    /\ (forall msg, next_line (process self) = BadBytes msg ->
                    fst outcome = Raise (Exn UnicodeDecodeError msg)).
Proof.
  intros R tool_name args self Hopen outcome. subst outcome.
  rewrite call_tool_stdin_written, Hopen, call_tool_outcome by exact Hopen.
  split; [reflexivity|].
  repeat split; intros; match goal with E : next_line _ = _ |- _ =>
    rewrite E end; reflexivity.
Qed.

Lemma call_tool_unusable_line_witness :
  stdin_open (process (init silent_child)) = true
  /\ stdin_written
       (process
          (snd (call_tool (u "get_statistics") (JObj []) (init silent_child))))
     = [make_request 1 (u "get_statistics") (JObj [])]
  /\ fst (call_tool (u "get_statistics") (JObj []) (init silent_child))
     = Return JNull.
Proof.
  split; [reflexivity|].
  destruct (call_tool_unusable_line
              (u "get_statistics") (JObj []) (init silent_child) eq_refl)
    as [Hwritten [Hblank _]].
  split; [exact Hwritten | exact (Hblank eq_refl)].
Defined.

(** C3: on a client created by [__init__], the n-th call allocates id n:
    the ids allocated by consecutive calls are 1, 2, 3, ..., each greater
    than all earlier ones, whatever the calls return or raise; the requests
    written to the child carry exactly these ids. *)
Theorem request_ids_start_at_1_and_increase :
  forall `{PyRuntime} (mcp_process : Popen) (calls : list (str * json)),
    let ids := ids_used calls (init mcp_process) in
    ids = map Z.of_nat (seq 1 (List.length calls))
    /\ StronglySorted Z.lt ids
    /\ NoDup ids
    /\ sent_ids (snd (run calls (init mcp_process)))
       = sent_ids (init mcp_process)
           ++ (if stdin_open mcp_process then ids else []).
Proof.
  intros R mcp_process calls ids. subst ids.
  rewrite run_sent_ids, ids_used_from. cbn [init request_id process].
  assert (Hsorted :
            StronglySorted Z.lt
              (map (fun k => (0 + Z.of_nat k)%Z)
                   (seq 1 (List.length calls))))
    by apply increasing_from.
  split; [apply map_ext; intros k; lia|].
  split; [exact Hsorted|].
  split; [|reflexivity].
  clear -Hsorted. induction Hsorted as [|x l _ IH Hall]; constructor.
  - intros Hin. rewrite Forall_forall in Hall.
    specialize (Hall x Hin). lia.
  - exact IH.
Qed.

(* ================================================================== *)
(** * Properties of the intent routing *)
(* ================================================================== *)

Section TextFacts.

Lemma N_eqb_refl_true (c : N) : (c =? c)%N = true.
Proof. apply N.eqb_refl. Qed.

Lemma startswith_app p : forall rest, startswith p (p ++ rest) = true.
Proof.
  induction p as [|c p IH]; intros rest; cbn [startswith app].
  - reflexivity.
  - now rewrite N_eqb_refl_true, IH.
Qed.

Lemma startswith_nil_l s : startswith [] s = true.
Proof. destruct s; reflexivity. Qed.

(** A string contains each of its substrings, whatever surrounds them. *)
Lemma contains_surrounded p post : forall pre,
  contains p (pre ++ p ++ post) = true.
Proof.
  induction pre as [|c pre IH].
  - cbn [app]. destruct (p ++ post) eqn:E.
    + destruct p; [reflexivity | discriminate].
    + cbn [contains]. rewrite <- E, startswith_app. reflexivity.
  - cbn [app contains]. rewrite IH. apply orb_true_r.
Qed.

Lemma last_opt_snoc (A : Type) (l : list A) (x : A) :
  last_opt (l ++ [x]) = Some x.
Proof. unfold last_opt. now rewrite rev_unit. Qed.

End TextFacts.

Section RoutingFacts.
Context `{PyRuntime}.

Lemma mentions_list_everything q :
  mentions list_everything_phrases q -> asks_list_all q = true.
Proof.
  intros (phrase & pre & post & Hin & ->). unfold asks_list_all.
  cbn [list_everything_phrases In] in Hin.
  destruct Hin as [<- | [<- | [<- | []]]];
    rewrite contains_surrounded;
    rewrite ?orb_true_r; reflexivity.
Qed.

Lemma mentions_category q :
  mentions category_phrases q -> asks_category q = true.
Proof.
  intros (phrase & pre & post & Hin & ->). unfold asks_category.
  cbn [category_phrases In] in Hin.
  destruct Hin as [<- | [<- | [<- | []]]];
    rewrite contains_surrounded;
    rewrite ?orb_true_r; reflexivity.
Qed.

(** Every exception [call_tool] raises derives from [Exception]. *)
Lemma read_response_raises response e :
  read_response response = Raise e -> is_Exception (exn_cls e) = true.
Proof.
  unfold read_response.
  destruct (py_contains (u "result") response) as [[|]|e1] eqn:E1;
    cbn [bind].
  - unfold py_getitem. destruct response; try (intros [= <-]; reflexivity).
    destruct (lookup _ _); intros [= <-]; reflexivity.
  - destruct (py_contains (u "error") response) as [[|]|e2] eqn:E2;
      cbn [bind].
    + destruct (py_getitem response (u "error")) as [v|e3] eqn:E3;
        cbn [bind]; intros [= <-]; [reflexivity|].
      unfold py_getitem in E3.
      destruct response; try (injection E3 as <-; reflexivity).
      destruct (lookup _ _); [discriminate | injection E3 as <-; reflexivity].
    + discriminate.
    + intros [= <-]. unfold py_contains in E2.
      destruct response; try discriminate; injection E2 as <-; reflexivity.
  - intros [= <-]. unfold py_contains in E1.
    destruct response; try discriminate; injection E1 as <-; reflexivity.
Qed.

Lemma call_tool_raises tool_name args self e :
  fst (call_tool tool_name args self) = Raise e ->
  is_Exception (exn_cls e) = true.
Proof.
  unfold call_tool, write_flush, readline.
  destruct (stdin_open (process self)).
  - cbn [stdout].
    destruct (stdout (process self)) as [|[msg| |msg|msg|msg|v] ?];
      cbn [fst]; try (intros [= <-]; reflexivity); try discriminate.
    apply read_response_raises.
  - cbn [fst]. intros [= <-].
    destruct (stdin_failure (process self)); reflexivity.
Qed.

(** ... and has a text: [str(e)] returns. *)
Lemma read_response_raises_str response e :
  read_response response = Raise e -> str_of e = Return (exn_str e).
Proof.
  unfold read_response.
  destruct (py_contains (u "result") response) as [[|]|e1] eqn:E1;
    cbn [bind].
  - unfold py_getitem. destruct response; try (intros [= <-]; reflexivity).
    destruct (lookup _ _); intros [= <-]; reflexivity.
  - destruct (py_contains (u "error") response) as [[|]|e2] eqn:E2;
      cbn [bind].
    + destruct (py_getitem response (u "error")) as [v|e3] eqn:E3;
        cbn [bind]; intros [= <-]; [reflexivity|].
      unfold py_getitem in E3.
      destruct response; try (injection E3 as <-; reflexivity).
      destruct (lookup _ _); [discriminate | injection E3 as <-; reflexivity].
    + discriminate.
    + intros [= <-]. unfold py_contains in E2.
      destruct response; try discriminate; injection E2 as <-; reflexivity.
  - intros [= <-]. unfold py_contains in E1.
    destruct response; try discriminate; injection E1 as <-; reflexivity.
Qed.

Lemma call_tool_raises_str tool_name args self e :
  fst (call_tool tool_name args self) = Raise e ->
  str_of e = Return (exn_str e).
Proof.
  unfold call_tool, write_flush, readline.
  destruct (stdin_open (process self)).
  - cbn [stdout].
    destruct (stdout (process self)) as [|[msg| |msg|msg|msg|v] ?];
      cbn [fst]; try (intros [= <-]; reflexivity); try discriminate.
    apply read_response_raises_str.
  - cbn [fst]. intros [= <-].
    destruct (stdin_failure (process self)); reflexivity.
Qed.

Lemma render_call label tool_name args c :
  (parts <- try_except_Exception
              (result <- fst (call_tool tool_name args c);;
               Return [label ++ Json.dumps false result])%py
              on_error;;
   Return (join_space parts))%py
  = Return (rendered label (fst (call_tool tool_name args c))).
Proof.
  destruct (fst (call_tool tool_name args c)) as [v|e] eqn:E;
    cbn [bind try_except_Exception rendered].
  - reflexivity.
  - rewrite (call_tool_raises _ _ _ E). unfold on_error.
    rewrite (call_tool_raises_str _ _ _ E). reflexivity.
Qed.

Lemma process_list_all query c :
  asks_list_all (lower query) = true ->
  process_user_query query (Some c)
  = (Return (rendered (u "Products: ")
               (fst (call_tool (u "list_products") (JObj []) c))),
     Some (snd (call_tool (u "list_products") (JObj []) c))).
Proof.
  intros Hq. unfold process_user_query, response_parts, call_or.
  rewrite Hq.
  pose proof (render_call (u "Products: ") (u "list_products") (JObj []) c)
    as Hr.
  destruct (call_tool (u "list_products") (JObj []) c) as [r c'].
  cbn [fst snd] in *. cbv beta iota zeta. f_equal. exact Hr.
Qed.

Lemma process_category query c :
  asks_list_all (lower query) = false ->
  asks_category (lower query) = true ->
  let args := JObj [(u "category", JStr (u "Электроника"))] in
  process_user_query query (Some c)
  = (Return (rendered (u "Products in " ++ u "Электроника" ++ u ": ")
               (fst (call_tool (u "list_products") args c))),
     Some (snd (call_tool (u "list_products") args c))).
Proof.
  intros Hq1 Hq2 args. unfold process_user_query, response_parts, call_or.
  rewrite Hq1, Hq2.
  pose proof (render_call (u "Products in " ++ u "Электроника" ++ u ": ")
                (u "list_products") args c) as Hr.
  fold args.
  destruct (call_tool (u "list_products") args c) as [r c'].
  cbn [fst snd] in *. cbv beta iota zeta. f_equal. exact Hr.
Qed.

End RoutingFacts.

(** C4: a query whose lower-cased text contains one of the "list
    everything" phrases, with any text before and after it, is routed to
    [list_products] with an empty argument mapping: [process_user_query]
    performs exactly the call [call_tool("list_products", {})] on its client
    (or uses the empty listing when it has none), and [MockLLM._generate]
    emits the tool use [list_products] with [args] = [{}]. *)
Theorem list_everything_routes_to_list_products :
  forall `{PyRuntime} (query : str),
    mentions list_everything_phrases (lower query) ->
    (forall c : MCPClient,
        let outcome := call_tool (u "list_products") (JObj []) c in
        process_user_query query (Some c)
        = (Return (rendered (u "Products: ") (fst outcome)),
           Some (snd outcome)))
    /\ process_user_query query None
       = (Return (u "Products: "
                    ++ Json.dumps false (JObj [(u "products", JArr [])])),
          None)
    /\ (forall earlier : list str,
          MockLLM._generate (earlier ++ [query])
          = Return (MockLLM.with_tool_use
                      (u "I'll get all products for you.")
                      (JObj [ (u "tool", JStr (u "list_products"));
                              (u "args", JObj []) ]))).
Proof.
  intros R query Hq. apply mentions_list_everything in Hq.
  split; [|split].
  - intros c. apply process_list_all. exact Hq.
  - unfold process_user_query, response_parts, call_or. rewrite Hq.
    reflexivity.
  - intros earlier. unfold MockLLM._generate, MockLLM.content_for.
    rewrite last_opt_snoc.
    change (MockLLM.asks_list_all (lower query))
      with (asks_list_all (lower query)).
    rewrite Hq. reflexivity.
Qed.

Lemma list_everything_routes_to_list_products_witness :
  mentions list_everything_phrases (lower (u "  Please SHOW PRODUCTS now "))
  /\ fst (process_user_query (u "  Please SHOW PRODUCTS now ") None)
     = Return (u "Products: "
                 ++ Json.dumps false (JObj [(u "products", JArr [])])).
Proof.
  assert (Hq : mentions list_everything_phrases
                 (lower (u "  Please SHOW PRODUCTS now "))).
  { exists (u "show products"), (u "  please "), (u " now ").
    split; [right; right; left; reflexivity | reflexivity]. }
  split; [exact Hq|].
  destruct (list_everything_routes_to_list_products _ Hq) as [_ [Hnone _]].
  rewrite Hnone. reflexivity.
Defined.

(** C5: a query that the List-all rule does not match and whose lower-cased
    text contains a category phrase is routed to [list_products] with the
    argument [{"category": "Электроника"}]: the category is this one
    literal, whichever category phrase the query contains. *)
Theorem category_routes_to_fixed_category :
  forall `{PyRuntime} (query : str),
    asks_list_all (lower query) = false ->
    mentions category_phrases (lower query) ->
    let args := JObj [(u "category", JStr (u "Электроника"))] in
    (forall c : MCPClient,
        let outcome := call_tool (u "list_products") args c in
        process_user_query query (Some c)
        = (Return (rendered (u "Products in Электроника: ") (fst outcome)),
           Some (snd outcome)))
    /\ process_user_query query None
       = (Return (u "Products in Электроника: "
                    ++ Json.dumps false (JObj [(u "products", JArr [])])),
          None)
    /\ (forall earlier : list str,
          MockLLM._generate (earlier ++ [query])
          = Return (MockLLM.with_tool_use
                      (u "Getting products in Электроника category.")
                      (JObj [ (u "tool", JStr (u "list_products"));
                              (u "args", args) ]))).
Proof.
  intros R query Hq1 Hq2 args. apply mentions_category in Hq2.
  split; [|split].
  - intros c. apply (process_category query c Hq1 Hq2).
  - unfold process_user_query, response_parts, call_or. rewrite Hq1, Hq2.
    reflexivity.
  - intros earlier. unfold MockLLM._generate, MockLLM.content_for.
    rewrite last_opt_snoc.
    change (MockLLM.asks_list_all (lower query))
      with (asks_list_all (lower query)).
    change (MockLLM.asks_category (lower query))
      with (asks_category (lower query)).
    rewrite Hq1, Hq2.
    destruct (contains (u "электроника") (lower query)); reflexivity.
Qed.

Lemma category_routes_to_fixed_category_witness :
  asks_list_all (lower (u "What is in the Category Books?")) = false
  /\ mentions category_phrases (lower (u "What is in the Category Books?"))
  /\ fst (process_user_query (u "What is in the Category Books?") None)
     = Return (u "Products in Электроника: "
                 ++ Json.dumps false (JObj [(u "products", JArr [])])).
Proof.
  assert (Hq : mentions category_phrases
                 (lower (u "What is in the Category Books?"))).
  { exists (u "category"), (u "what is in the "), (u " books?").
    split; [right; left; reflexivity | reflexivity]. }
  split; [reflexivity|]. split; [exact Hq|].
  destruct (@category_routes_to_fixed_category RefPy_runtime
              (u "What is in the Category Books?") eq_refl Hq)
    as [_ [Hnone _]].
  rewrite Hnone. reflexivity.
Defined.

(** ** The product branch and the discount branch *)

Section BranchFacts.
Context `{PyRuntime}.

Lemma product_loop_without_id mcp_client : forall words,
  no_int_after is_id words -> product_loop words mcp_client = ([], mcp_client).
Proof.
  induction words as [|word rest IH]; [reflexivity|].
  destruct rest as [|next rest']; [reflexivity|].
  intros [Hnext Hrest]. cbn [product_loop].
  fold (is_id word). destruct (is_id word).
  - rewrite (Hnext eq_refl). apply IH, Hrest.
  - apply IH, Hrest.
Qed.

Lemma find_product_id_without_id : forall words,
  no_int_after is_id_or_nomer words -> MockLLM.find_product_id words = None.
Proof.
  induction words as [|word rest IH]; [reflexivity|].
  destruct rest as [|next rest']; [reflexivity|].
  intros [Hnext Hrest]. cbn [MockLLM.find_product_id].
  fold (is_id_or_nomer word). destruct (is_id_or_nomer word).
  - rewrite (Hnext eq_refl). apply IH, Hrest.
  - apply IH, Hrest.
Qed.

(** In [process_user_query] a product query without a usable id issues no
    call and answers with the empty string. *)
Lemma process_product_without_id query mcp_client :
  asks_list_all (lower query) = false ->
  asks_category (lower query) = false ->
  asks_statistics (lower query) = false ->
  asks_product (lower query) = true ->
  no_int_after is_id (split (lower query)) ->
  process_user_query query mcp_client = (Return [], mcp_client).
Proof.
  intros H1 H2 H3 H4 Hwords. unfold process_user_query, response_parts.
  rewrite H1, H2, H3, H4, (product_loop_without_id _ _ Hwords).
  reflexivity.
Qed.

(** In [MockLLM._generate] the same situation yields the clarification
    message. *)
Lemma generate_product_without_id earlier query :
  MockLLM.asks_list_all (lower query) = false ->
  MockLLM.asks_category (lower query) = false ->
  MockLLM.asks_statistics (lower query) = false ->
  MockLLM.asks_product (lower query) = true ->
  no_int_after is_id_or_nomer (split (lower query)) ->
  MockLLM._generate (earlier ++ [query])
  = Return (u "Please specify a product ID.").
Proof.
  intros H1 H2 H3 H4 Hwords. unfold MockLLM._generate, MockLLM.content_for.
  rewrite last_opt_snoc, H1, H2, H3, H4.
  rewrite (find_product_id_without_id _ Hwords). reflexivity.
Qed.

(** [calculator] on the literal of the discount branch never reaches
    [eval]: it returns a text in every runtime. *)
Lemma calculator_literal_returns :
  exists text, calculator (u "15% of 50000") = Return text.
Proof.
  unfold calculator, calculator_body.
  replace (contains (u "%") (u "15% of 50000")) with true by reflexivity.
  replace (split_on (u " of ") (u "15% of 50000"))
    with [u "15%"; u "50000"] by reflexivity.
  unfold float_of.
  destruct (py_float (strip (remove_char 37 (strip (u "15%")))));
    cbn [bind try_except_Exception exn_cls is_Exception];
    [|eexists; reflexivity].
  destruct (py_float (strip (u "50000")));
    cbn [bind try_except_Exception exn_cls is_Exception];
    eexists; reflexivity.
Qed.

(** In [process_user_query] every query that reaches the discount branch
    gets the calculation of the same literal expression. *)
Lemma process_discount_same_expression query mcp_client :
  asks_list_all (lower query) = false ->
  asks_category (lower query) = false ->
  asks_statistics (lower query) = false ->
  asks_product (lower query) = false ->
  asks_add (lower query) = false ->
  asks_discount (lower query) = true ->
  exists text,
    calculator (u "15% of 50000") = Return text
    /\ process_user_query query mcp_client
       = (Return (u "Calculation: " ++ text), mcp_client).
Proof.
  intros H1 H2 H3 H4 H5 H6. destruct calculator_literal_returns as [text Ht].
  exists text. split; [exact Ht|].
  unfold process_user_query, response_parts.
  rewrite H1, H2, H3, H4, H5, H6, Ht. reflexivity.
Qed.

(** In [MockLLM._generate] the expression is built from the words before
    and after the first percent sign. *)
Lemma generate_discount_from_query earlier query part0 part1 rest x y :
  MockLLM.asks_list_all (lower query) = false ->
  MockLLM.asks_category (lower query) = false ->
  MockLLM.asks_statistics (lower query) = false ->
  MockLLM.asks_product (lower query) = false ->
  MockLLM.asks_add (lower query) = false ->
  contains (u "%") (lower query) = true ->
  split_on (u "%") (lower query) = part0 :: part1 :: rest ->
  last_opt (split (strip part0)) = Some x ->
  last_opt (split (strip part1)) = Some y ->
  MockLLM._generate (earlier ++ [query])
  = Return (MockLLM.with_tool_use (u "Calculating discount.")
              (JObj [ (u "tool", JStr (u "calculator"));
                      (u "args",
                       JObj [(u "expression",
                              JStr (x ++ u "% of " ++ y))]) ])).
Proof.
  intros H1 H2 H3 H4 H5 H6 Hparts Hx Hy.
  unfold MockLLM._generate, MockLLM.content_for, MockLLM.asks_calculation.
  rewrite last_opt_snoc, H1, H2, H3, H4, H5, H6, Hparts.
  cbn [orb]. unfold MockLLM.last_item, MockLLM.item1.
  rewrite Hx. cbn [bind]. rewrite Hy. reflexivity.
Qed.

End BranchFacts.

(** C6 on a product query without a number ("product id abc"): the sibling
    router [MockLLM._generate] answers "Please specify a product ID.", while
    [process_user_query] sends nothing to the client and answers with the
    empty string. *)
Theorem product_query_without_number :
  process_user_query (u "product id abc") None = (Return [], None)
  /\ process_user_query (u "product id abc") (Some (init silent_child))
     = (Return [], Some (init silent_child))
  /\ MockLLM._generate [u "product id abc"]
     = Return (u "Please specify a product ID.").
Proof. repeat split; vm_compute; reflexivity. Qed.

(** C7 on the query "discount 20% of 300": the sibling router
    [MockLLM._generate] builds the expression "20% of 300" from the query,
    while [process_user_query] calls the calculator on the literal
    "15% of 50000" and reports 7500.0. *)
Theorem discount_query_with_other_operands :
  process_user_query (u "discount 20% of 300") None
  = (Return (u "Calculation: 15.0% of 50000.0 = 7500.0"), None)
  /\ calculator (u "15% of 50000") = Return (u "15.0% of 50000.0 = 7500.0")
  /\ calculator (u "20% of 300") = Return (u "20.0% of 300.0 = 60.0")
  /\ MockLLM._generate [u "discount 20% of 300"]
     = Return (MockLLM.with_tool_use (u "Calculating discount.")
                 (JObj [ (u "tool", JStr (u "calculator"));
                         (u "args",
                          JObj [(u "expression", JStr (u "20% of 300"))]) ])).
Proof. repeat split; vm_compute; reflexivity. Qed.

(* ================================================================== *)
(** * Properties of the calculator *)
(* ================================================================== *)

Section CalculatorFacts.
Context `{PyRuntime}.


End CalculatorFacts.




(* ================================================================== *)
(** * Properties of the catalog tools *)
(* ================================================================== *)

Section McpServerFacts.
Context `{PyRuntime}.

Lemma deref_new_object (s : Server) (products : list json) file :
  deref (List.length (heap s))
        {| heap := heap s ++ [products];
           products_data := List.length (heap s);
           products_file := file |}
  = products.
Proof. unfold deref. cbn [heap]. apply nth_middle. Qed.

Lemma load_products_file s :
  products_file (snd (load_products s)) = products_file s.
Proof.
  unfold load_products.
  destruct (deref (products_data s) s); [|reflexivity].
  destruct (products_file s) as [[products|e]|] eqn:F; cbn [snd];
    [reflexivity | exact F | exact F].
Qed.

(** The catalog in terms of the state. *)
Lemma catalog_unfold s :
  catalog s
  = match deref (products_data s) s, products_file s with
    | [], Some (Stored products) => Return products
    | [], Some (Corrupt e) => Raise e
    | products, _ => Return products
    end.
Proof.
  unfold catalog, load_products.
  destruct (deref (products_data s) s) as [|p ps] eqn:E.
  - destruct (products_file s) as [[products|e]|]; cbn [bind].
    + now rewrite deref_new_object.
    + reflexivity.
    + now rewrite E.
  - cbn [bind]. now rewrite E.
Qed.

(** Loading does not change what a later load yields. *)
Lemma load_products_untouched s : untouched s (snd (load_products s)).
Proof.
  split; [apply load_products_file|].
  rewrite (catalog_unfold s), catalog_unfold. unfold load_products.
  destruct (deref (products_data s) s) as [|p ps] eqn:E.
  - destruct (products_file s) as [[products|e]|] eqn:F; cbn [snd].
    + cbn [products_data products_file]. rewrite deref_new_object.
      destruct products; reflexivity.
    + now rewrite E, F.
    + now rewrite E, F.
  - cbn [snd]. now rewrite E.
Qed.

Lemma list_products_state category s :
  snd (list_products category s) = snd (load_products s).
Proof. unfold list_products. now destruct (load_products s). Qed.

Lemma get_product_state product_id s :
  snd (get_product product_id s) = snd (load_products s).
Proof. unfold get_product. now destruct (load_products s). Qed.

Lemma get_statistics_state s :
  snd (get_statistics s) = snd (load_products s).
Proof. unfold get_statistics. now destruct (load_products s). Qed.

(** The answers of the read-only tools are functions of the catalog. *)
Lemma get_product_answer product_id s :
  fst (get_product product_id s)
  = (products <- catalog s;; find_product product_id products)%py.
Proof.
  unfold get_product, catalog.
  destruct (load_products s) as [[r|e] s']; reflexivity.
Qed.

Lemma get_statistics_answer s :
  fst (get_statistics s)
  = (products <- catalog s;;
     match products with
     | [] =>
       Return (JObj [ (u "total_products", JInt 0);
                      (u "average_price", JInt 0);
                      (u "in_stock_count", JInt 0);
                      (u "categories", JArr []);
                      (u "price_range",
                       JObj [ (u "min", JInt 0); (u "max", JInt 0) ]) ])
     | _ => statistics_of products
     end)%py.
Proof.
  unfold get_statistics, catalog.
  destruct (load_products s) as [[r|e] s']; [|reflexivity].
  cbn [bind fst]. destruct (deref r s'); reflexivity.
Qed.

Lemma list_products_answer category s :
  fst (list_products category s)
  = (products <- catalog s;;
     match category with
     | Some ((_ :: _) as category) =>
       filtered <- filter_category category products;;
       Return (JObj [ (u "products", JArr filtered);
                      (u "total", len filtered);
                      (u "category", JStr category) ])
     | _ =>
       Return (JObj [ (u "products", JArr products);
                      (u "total", len products) ])
     end)%py.
Proof.
  unfold list_products, catalog.
  destruct (load_products s) as [[r|e] s']; reflexivity.
Qed.

Lemma load_products_ref s r s1 :
  load_products s = (Return r, s1) -> r = products_data s1.
Proof.
  unfold load_products.
  destruct (deref (products_data s) s).
  - destruct (products_file s) as [[products|e]|]; intros [= <- <-];
      reflexivity.
  - intros [= <- <-]. reflexivity.
Qed.

(** [add_product]'s answer is a function of the catalog as well. *)
Lemma add_product_answer name price category in_stock s :
  fst (add_product name price category in_stock s)
  = (products <- catalog s;;
     id <- match products with
           | [] => Return (JInt 1)
           | p :: ps =>
             first <- py_getitem p (u "id");;
             m <- max_id_from first ps;;
             py_add m (JInt 1)
           end;;
     Return (JObj [ (u "success", JBool true);
                    (u "product",
                     JObj [ (u "id", id); (u "name", JStr name);
                            (u "price", JFloat price);
                            (u "category", JStr category);
                            (u "in_stock", JBool in_stock) ]) ]))%py.
Proof.
  unfold add_product, catalog.
  destruct (load_products s) as [[r|e] s1] eqn:E; [|reflexivity].
  apply load_products_ref in E. subst r. cbn [bind].
  unfold get_next_product_id.
  destruct (deref (products_data s1) s1) as [|p ps]; [reflexivity|].
  destruct (py_getitem p (u "id")); [|reflexivity]. cbn [bind].
  destruct (max_id_from _ ps); [|reflexivity]. cbn [bind].
  destruct (py_add _ _); reflexivity.
Qed.

(** Two states that show the same catalog give the same answers to every
    tool. *)
Lemma same_catalog_same_answers s s' :
  catalog s' = catalog s ->
  (forall category,
      fst (list_products category s') = fst (list_products category s))
  /\ (forall product_id,
        fst (get_product product_id s') = fst (get_product product_id s))
  /\ fst (get_statistics s') = fst (get_statistics s)
  /\ (forall name price category in_stock,
        fst (add_product name price category in_stock s')
        = fst (add_product name price category in_stock s)).
Proof.
  intros Hsame. repeat split; intros.
  - now rewrite !list_products_answer, Hsame.
  - now rewrite !get_product_answer, Hsame.
  - now rewrite !get_statistics_answer, Hsame.
  - now rewrite !add_product_answer, Hsame.
Qed.

(** On success [add_product] has written the products file. *)
Lemma add_product_saves name price category in_stock s v s' :
  add_product name price category in_stock s = (Return v, s') ->
  products_file s' = Some (Stored (deref (products_data s') s')).
Proof.
  unfold add_product.
  destruct (load_products s) as [[products|e] s1]; [|discriminate].
  destruct (get_next_product_id s1); [|discriminate].
  intros [= _ <-]. reflexivity.
Qed.

End McpServerFacts.

(** C9 on an empty catalog: [get_statistics] does not fail, and the dict it
    returns has [total_products], [average_price] and [in_stock_count] equal
    to 0, [categories] empty and [price_range] = [{min: 0, max: 0}], but no
    [out_of_stock_count] entry, which the branch for a non-empty catalog
    does produce. *)
Theorem get_statistics_empty_catalog :
  forall `{PyRuntime} (s : Server),
    catalog s = Return [] ->
    exists kv,
      fst (get_statistics s) = Return (JObj kv)
      /\ lookup (u "total_products") kv = Some (JInt 0)
      /\ lookup (u "average_price") kv = Some (JInt 0)
      /\ lookup (u "in_stock_count") kv = Some (JInt 0)
      /\ lookup (u "categories") kv = Some (JArr [])
      /\ lookup (u "price_range") kv
         = Some (JObj [ (u "min", JInt 0); (u "max", JInt 0) ])
      /\ lookup (u "out_of_stock_count") kv = None.
Proof.
  intros R s Hempty. rewrite get_statistics_answer, Hempty. cbn [bind].
  eexists. split; [reflexivity|]. repeat split; reflexivity.
Qed.

Lemma get_statistics_empty_catalog_witness :
  catalog (fresh None) = Return []
  /\ fst (get_statistics (fresh None))
     = Return (JObj [ (u "total_products", JInt 0);
                      (u "average_price", JInt 0);
                      (u "in_stock_count", JInt 0);
                      (u "categories", JArr []);
                      (u "price_range",
                       JObj [ (u "min", JInt 0); (u "max", JInt 0) ]) ]).
Proof.
  split; [reflexivity|].
  destruct (@get_statistics_empty_catalog RefPy_runtime (fresh None) eq_refl)
    as (kv & Hret & _).
  reflexivity.
Defined.

(** C10: [list_products], [get_product] and [get_statistics] leave the
    products file as it was, and the catalog a later operation loads is the
    catalog that was there before the call, whether the call returns or
    raises; [add_product] is the operation that writes the file: when it
    returns, the file holds the in-memory catalog. *)
Theorem read_only_tools_leave_catalog_untouched :
  forall `{PyRuntime} (s : Server),
    (forall category, untouched s (snd (list_products category s)))
    /\ (forall product_id, untouched s (snd (get_product product_id s)))
    /\ untouched s (snd (get_statistics s))
    /\ (forall name price category in_stock v s',
          add_product name price category in_stock s = (Return v, s') ->
          products_file s' = Some (Stored (deref (products_data s') s'))).
Proof.
  intros R s. repeat split.
  - rewrite list_products_state. apply load_products_file.
  - rewrite list_products_state. apply load_products_untouched.
  - rewrite get_product_state. apply load_products_file.
  - rewrite get_product_state. apply load_products_untouched.
  - rewrite get_statistics_state. apply load_products_file.
  - rewrite get_statistics_state. apply load_products_untouched.
  - intros name price category in_stock v s'. apply add_product_saves.
Qed.

(* ================================================================== *)
(** * Runs on the reference runtime *)
(* ================================================================== *)

(** General arithmetic goes through [eval]. *)
Example calculator_sum :
  calculator (u "100 + 50") = Return (u "100 + 50 = 150").
Proof. vm_compute. reflexivity. Qed.

(** A percentage whose operand is not a number is reported as text. *)
Example calculator_bad_percentage :
  calculator (u "abc% of 5")
  = Return (u "Error calculating: could not convert string to float: 'abc'").
Proof. vm_compute. reflexivity. Qed.

(** The empty query and a blank query reach the final [else]. *)
Example blank_queries_get_default :
  process_user_query [] None
  = (Return (u "How can I help you with product management?"), None)
  /\ process_user_query (u "   ") None
     = (Return (u "How can I help you with product management?"), None).
Proof. split; vm_compute; reflexivity. Qed.

(** "show products" with a child that answers an empty listing: request 1
    for [list_products] with [{}] is written and the listing is rendered. *)
Example show_products_end_to_end :
  let listing := JObj [ (u "products", JArr []); (u "total", JInt 0) ] in
  let child :=
    answering (JObj [ (u "jsonrpc", JStr (u "2.0")); (u "id", JInt 1);
                      (u "result", listing) ]) in
  process_user_query (u "show products") (Some (init child))
  = (Return (u "Products: " ++ Json.dumps false listing),
     Some {| process :=
               {| stdin_open := true;
                  stdin_failure := BrokenPipe;
                  stdin_written :=
                    [make_request 1 (u "list_products") (JObj [])];
                  stdout := [] |};
             request_id := 1 |}).
Proof. vm_compute. reflexivity. Qed.

(** "find product id 1" with a child that reports a failure: the call is
    made, the exception it raises is swallowed by the bare [except] of the
    loop, and the response is empty. *)
Example find_product_failure :
  let child :=
    answering
      (JObj [ (u "jsonrpc", JStr (u "2.0")); (u "id", JInt 1);
              (u "error",
               JObj [ (u "code", JInt (-32000));
                      (u "message",
                       JStr (u "Product with ID 1 not found")) ]) ]) in
  fst (call_tool (u "get_product") (JObj [(u "product_id", JInt 1)])
         (init child))
  = Raise (Exn Exception_
             (u "MCP Error: {'code': -32000, 'message': 'Product with ID 1 not found'}"))
  /\ fst (process_user_query (u "find product id 1") (Some (init child)))
     = Return [].
Proof. split; vm_compute; reflexivity. Qed.

(** The statistics of a non-empty catalog carry [out_of_stock_count]. *)
Example get_statistics_sample :
  fst (get_statistics (fresh (Some (Stored sample_catalog))))
  = Return (JObj [ (u "total_products", JInt 3);
                   (u "average_price", JFloat (float_of_Z 25));
                   (u "in_stock_count", JInt 2);
                   (u "out_of_stock_count", JInt 1);
                   (u "categories", JArr [JStr (u "Books"); JStr (u "Toys")]);
                   (u "price_range",
                    JObj [ (u "min", JInt 10); (u "max", JInt 40) ]) ]).
Proof. vm_compute. reflexivity. Qed.

(** [add_product] on the sample catalog. [products] and [products_data]
    name one list: after [append], [clear] empties it and [extend] adds
    its own (now empty) contents, so the list that is saved is empty. *)
Example add_product_sample :
  let outcome :=
    add_product (u "lamp") (float_of_Z 5) (u "Home") true
                (fresh (Some (Stored sample_catalog))) in
  fst outcome
  = Return (JObj [ (u "success", JBool true);
                   (u "product",
                    JObj [ (u "id", JInt 4); (u "name", JStr (u "lamp"));
                           (u "price", JFloat (float_of_Z 5));
                           (u "category", JStr (u "Home"));
                           (u "in_stock", JBool true) ]) ])
  /\ products_file (snd outcome) = Some (Stored [])
  /\ catalog (snd outcome) = Return [].
Proof. repeat split; vm_compute; reflexivity. Qed.

(* ================================================================== *)
(** * Further properties of the transport client *)
(* ================================================================== *)

Section MoreTransportFacts.
Context `{PyRuntime}.

Lemma firstn_padding (A : Type) (x : A) : forall n m (l : list A),
  (n <= m)%nat -> firstn n (l ++ repeat x m) = firstn n (l ++ repeat x n).
Proof.
  induction n as [|n IH]; intros m l Hle; [reflexivity|].
  destruct l as [|y l].
  - destruct m as [|m]; [lia|]. cbn [app repeat firstn]. f_equal.
    apply (IH m []). lia.
  - cbn [app firstn]. f_equal. rewrite (IH m l) by lia.
    symmetry. apply IH. lia.
Qed.

Lemma lines_read_step n self tool_name args :
  stdin_open (process self) = true ->
  lines_read (S n) (process self)
  = next_line (process self)
      :: lines_read n (process (snd (call_tool tool_name args self))).
Proof.
  intros Hopen. unfold lines_read, next_line, call_tool, write_flush, readline.
  rewrite Hopen. cbn [stdout].
  destruct (stdout (process self)) as [|line lines].
  - cbn [snd process stdout app repeat firstn fst]. reflexivity.
  - assert (Hsnd : stdout (process (snd
                     (let self' :=
                        {| process :=
                             {| stdin_open := true;
                                stdin_failure := stdin_failure (process self);
                                stdin_written :=
                                  stdin_written (process self)
                                    ++ [make_request (request_id self + 1)
                                          tool_name args];
                                stdout := lines |};
                           request_id := (request_id self + 1)%Z |} in
                      match line with
                      | BadBytes msg => (Raise (Exn UnicodeDecodeError msg), self')
                      | Blank => (Return JNull, self')
                      | BadJson msg => (Raise (Exn JSONDecodeError msg), self')
                      | BadNumber msg => (Raise (Exn ValueError msg), self')
                      | TooDeep msg => (Raise (Exn RecursionError msg), self')
                      | Doc response => (read_response response, self')
                      end))) = lines)
      by (destruct line; reflexivity).
    cbn [fst app firstn]. f_equal.
    etransitivity; [apply firstn_padding; lia|].
    f_equal. f_equal. symmetry. exact Hsnd.
Qed.

Lemma call_tool_stdout tool_name args self :
  stdin_open (process self) = true ->
  stdout (process (snd (call_tool tool_name args self)))
  = skipn 1 (stdout (process self)).
Proof.
  intros Hopen. unfold call_tool, write_flush, readline.
  rewrite Hopen. cbn [stdout].
  destruct (stdout (process self)) as [|[] ?]; reflexivity.
Qed.

Lemma run_fst_cons tool_name args calls self :
  fst (run ((tool_name, args) :: calls) self)
  = fst (call_tool tool_name args self)
      :: fst (run calls (snd (call_tool tool_name args self))).
Proof.
  cbn [run]. destruct (call_tool tool_name args self) as [r self'].
  cbn [fst snd]. now destruct (run calls self').
Qed.

Lemma has_key_lookup key kv :
  has_key key kv = true -> exists v, lookup key kv = Some v.
Proof.
  unfold has_key. destruct (lookup key kv) as [v|]; [eauto | discriminate].
Qed.

Lemma py_contains_raises key v e :
  py_contains key v = Raise e -> exn_cls e = TypeError.
Proof.
  unfold py_contains.
  destruct v; try discriminate; intros [= <-]; reflexivity.
Qed.

Lemma py_getitem_present key v e :
  py_contains key v = Return true ->
  py_getitem v key = Raise e -> exn_cls e = TypeError.
Proof.
  unfold py_contains, py_getitem.
  destruct v; try discriminate; try (intros _ [= <-]; reflexivity).
  intros [= Hkey]. apply has_key_lookup in Hkey. destruct Hkey as [x ->].
  discriminate.
Qed.

Lemma read_response_classes response e :
  read_response response = Raise e ->
  exn_cls e = TypeError \/ exn_cls e = Exception_.
Proof.
  unfold read_response.
  destruct (py_contains (u "result") response) as [[|]|e1] eqn:E1;
    cbn [bind].
  - intros Hget. left. exact (py_getitem_present _ _ E1 Hget).
  - destruct (py_contains (u "error") response) as [[|]|e2] eqn:E2;
      cbn [bind].
    + destruct (py_getitem response (u "error")) as [v|e3] eqn:E3;
        cbn [bind]; intros [= <-].
      * now right.
      * left. exact (py_getitem_present _ _ E2 E3).
    + discriminate.
    + intros [= <-]. left. exact (py_contains_raises _ _ E2).
  - intros [= <-]. left. exact (py_contains_raises _ _ E1).
Qed.

End MoreTransportFacts.

(** X1: on a client whose pipe to the child is open, consecutive calls are
    answered strictly by position: the k-th call gets what the k-th pending
    line of the child's stdout decodes to (EOF once the lines run out),
    whatever ids the lines carry, and the calls consume exactly one line
    each. *)
Theorem run_answers_by_position :
  forall `{PyRuntime} (calls : list (str * json)) (self : MCPClient),
    stdin_open (process self) = true ->
    fst (run calls self)
    = map line_outcome (lines_read (List.length calls) (process self))
    /\ stdout (process (snd (run calls self)))
       = skipn (List.length calls) (stdout (process self)).
Proof.
  intros R calls. induction calls as [|[tool_name args] calls IH];
    intros self Hopen.
  - split; reflexivity.
  - assert (Hopen' :
              stdin_open (process (snd (call_tool tool_name args self)))
              = true) by (now rewrite call_tool_stdin_open).
    destruct (IH _ Hopen') as [IHout IHrest]. split.
    + rewrite run_fst_cons, IHout. cbn [List.length].
      rewrite (lines_read_step _ _ tool_name args Hopen). cbn [map].
      f_equal. rewrite call_tool_outcome by exact Hopen.
      unfold line_outcome. reflexivity.
    + rewrite run_snd_cons, IHrest, call_tool_stdout by exact Hopen.
      cbn [List.length]. destruct (stdout (process self)); [|reflexivity].
      cbn [skipn]. now rewrite skipn_nil.
Qed.

Lemma run_answers_by_position_witness :
  stdin_open (process (init stale_child)) = true
  /\ fst (run [(u "get_statistics", JObj []); (u "list_products", JObj [])]
            (init stale_child))
     = [ Return (JObj [ (u "products", JArr []); (u "total", JInt 0) ]);
         Return JNull ].
Proof.
  split; [reflexivity|].
  destruct (run_answers_by_position
              [(u "get_statistics", JObj []); (u "list_products", JObj [])]
              (init stale_child) eq_refl) as [Hout _].
  rewrite Hout. reflexivity.
Defined.

(** X2: when the child's stdin is no longer open, every call of a
    sequence raises the write's failure ([BrokenPipeError] when the child
    has gone, [ValueError] when the client's end has been closed) and leaves
    the process untouched (nothing is written, no line is consumed), while
    the request counter still advances by one per call. *)
Theorem run_on_closed_pipe :
  forall `{PyRuntime} (calls : list (str * json)) (self : MCPClient),
    stdin_open (process self) = false ->
    fst (run calls self)
    = map (fun _ => Raise (write_error (stdin_failure (process self)))) calls
    /\ process (snd (run calls self)) = process self
    /\ request_id (snd (run calls self))
       = (request_id self + Z.of_nat (List.length calls))%Z.
Proof.
  intros R calls. induction calls as [|[tool_name args] calls IH];
    intros self Hclosed.
  - cbn. repeat split. lia.
  - assert (Hstep : call_tool tool_name args self
                    = (Raise (write_error (stdin_failure (process self))),
                       {| process := process self;
                          request_id := (request_id self + 1)%Z |})).
    { unfold call_tool, write_flush. now rewrite Hclosed. }
    rewrite run_fst_cons, run_snd_cons, Hstep. cbn [fst snd].
    destruct (IH {| process := process self;
                    request_id := (request_id self + 1)%Z |} Hclosed)
      as [IHout [IHproc IHid]].
    rewrite IHout, IHproc, IHid. cbn [map process request_id List.length].
    repeat split. lia.
Qed.

Lemma run_on_closed_pipe_witness :
  let closed := {| stdin_open := false; stdin_failure := ClosedFile;
                   stdin_written := []; stdout := [Doc stale_reply] |} in
  let calls := [(u "get_statistics", JObj []); (u "list_products", JObj [])] in
  stdin_open (process (init closed)) = false
  /\ fst (run calls (init closed))
     = [ Raise (Exn ValueError (u "write to closed file"));
         Raise (Exn ValueError (u "write to closed file")) ]
  /\ request_id (snd (run calls (init closed))) = 2%Z
  /\ process (snd (run calls (init closed))) = closed.
Proof.
  intros closed calls. split; [reflexivity|].
  destruct (run_on_closed_pipe calls (init closed) eq_refl)
    as [Hout [Hproc Hid]].
  split; [rewrite Hout; reflexivity|].
  split; [rewrite Hid; reflexivity | rewrite Hproc; reflexivity].
Defined.

(** X3: whatever [call_tool] raises is the write's [BrokenPipeError] or
    [ValueError], the decoder's [UnicodeDecodeError], [JSONDecodeError],
    [ValueError] or [RecursionError], a [TypeError] from inspecting the
    decoded value, or the plain [Exception] that reports the provider's
    error; in particular it is always caught by an [except Exception] clause
    and it is never a [KeyError]. *)
Theorem call_tool_raises_only :
  forall `{PyRuntime} tool_name args self e,
    fst (call_tool tool_name args self) = Raise e ->
    In (exn_cls e)
       [BrokenPipeError; ValueError; UnicodeDecodeError; JSONDecodeError;
        RecursionError; TypeError; Exception_]
    /\ is_Exception (exn_cls e) = true.
Proof.
  intros R tool_name args self e.
  unfold call_tool, write_flush, readline.
  destruct (stdin_open (process self)).
  - cbn [stdout].
    destruct (stdout (process self)) as [|[msg| |msg|msg|msg|v] ?];
      cbn [fst]; try discriminate;
      try (intros [= <-]; cbn; split; [tauto | reflexivity]).
    intros Hr. destruct (read_response_classes _ Hr) as [-> | ->];
      cbn; split; tauto.
  - cbn [fst]. intros [= <-].
    destruct (stdin_failure (process self)); cbn; split; tauto.
Qed.

Lemma call_tool_raises_only_witness :
  fst (call_tool (u "get_product") (JObj [])
         (init (answering (JInt 5))))
  = Raise (Exn TypeError (u "argument of type 'int' is not iterable"))
  /\ In TypeError
        [BrokenPipeError; ValueError; UnicodeDecodeError; JSONDecodeError;
         RecursionError; TypeError; Exception_].
Proof.
  split; [reflexivity|].
  exact (proj1 (call_tool_raises_only
                  (u "get_product") (JObj []) (init (answering (JInt 5)))
                  (e := Exn TypeError
                          (u "argument of type 'int' is not iterable"))
                  eq_refl)).
Defined.

(** X4: a response line that decodes to something other than a JSON object
    never yields a tool result: the call raises [TypeError] or returns
    [None]. *)
Theorem call_tool_non_object_response :
  forall `{PyRuntime} tool_name args self v,
    stdin_open (process self) = true ->
    next_line (process self) = Doc v ->
    (forall kv, v <> JObj kv) ->
    fst (call_tool tool_name args self) = Return JNull
    \/ exists msg,
         fst (call_tool tool_name args self) = Raise (Exn TypeError msg).
Proof.
  intros R tool_name args self v Hopen Hline Hshape.
  rewrite call_tool_outcome, Hline by exact Hopen.
  unfold read_response, py_contains, py_getitem.
  destruct v as [| b | z | x | t | l | kv]; cbn [bind];
    try (right; eexists; reflexivity).
  - destruct (contains (u "result") t); cbn [bind];
      [right; eexists; reflexivity|].
    destruct (contains (u "error") t); cbn [bind];
      [right; eexists; reflexivity | now left].
  - destruct (existsb _ l); cbn [bind]; [right; eexists; reflexivity|].
    destruct (existsb _ l); cbn [bind];
      [right; eexists; reflexivity | now left].
  - now destruct (Hshape kv).
Qed.

Lemma call_tool_non_object_response_witness :
  let child := answering (JArr [JStr (u "result"); JInt 1]) in
  stdin_open (process (init child)) = true
  /\ next_line (process (init child)) = Doc (JArr [JStr (u "result"); JInt 1])
  /\ (forall kv, JArr [JStr (u "result"); JInt 1] <> JObj kv)
  /\ fst (call_tool (u "get_product") (JObj []) (init child))
     = Raise (Exn TypeError
                (u "list indices must be integers or slices, not str")).
Proof.
  intros child. split; [reflexivity|]. split; [reflexivity|].
  assert (Hshape : forall kv, JArr [JStr (u "result"); JInt 1] <> JObj kv)
    by (intros kv; discriminate).
  split; [exact Hshape|].
  destruct (call_tool_non_object_response
              (u "get_product") (JObj []) (init child) eq_refl eq_refl Hshape)
    as [Hnone | [msg Hraise]].
  - vm_compute in Hnone. discriminate.
  - reflexivity.
Defined.

(* ================================================================== *)
(** * Further properties of the routing *)
(* ================================================================== *)

Section MoreTextFacts.

Lemma startswith_inv p : forall s,
  startswith p s = true -> exists post, s = p ++ post.
Proof.
  induction p as [|c p IH]; intros s Hs.
  - exists s. reflexivity.
  - destruct s as [|d s]; [discriminate|]. cbn [startswith] in Hs.
    apply andb_true_iff in Hs. destruct Hs as [Hc Hs].
    apply N.eqb_eq in Hc. subst d.
    destruct (IH _ Hs) as [post ->]. exists post. reflexivity.
Qed.

Lemma contains_inv p : forall s,
  contains p s = true -> exists pre post, s = pre ++ p ++ post.
Proof.
  induction s as [|c s IH]; intros Hs; cbn [contains] in Hs;
    apply orb_true_iff in Hs; destruct Hs as [Hs | Hs].
  - destruct (startswith_inv _ _ Hs) as [post ->]. now exists [], post.
  - discriminate.
  - destruct (startswith_inv _ _ Hs) as [post ->]. now exists [], post.
  - destruct (IH Hs) as (pre & post & ->). now exists (c :: pre), post.
Qed.

Lemma not_mentions_cons phrase phrases text :
  ~ mentions (phrase :: phrases) text ->
  contains phrase text = false /\ ~ mentions phrases text.
Proof.
  intros Hno. split.
  - destruct (contains phrase text) eqn:E; [|reflexivity].
    destruct (contains_inv _ _ E) as (pre & post & ->).
    exfalso. apply Hno. exists phrase, pre, post. split; [now left | reflexivity].
  - intros (ph & pre & post & Hin & ->). apply Hno.
    exists ph, pre, post. split; [now right | reflexivity].
Qed.

End MoreTextFacts.

Section MoreRoutingFacts.
Context `{PyRuntime}.

Lemma not_mentions_list_everything q :
  ~ mentions list_everything_phrases q -> asks_list_all q = false.
Proof.
  intros Hno. unfold asks_list_all, list_everything_phrases in *.
  apply not_mentions_cons in Hno. destruct Hno as [-> Hno].
  apply not_mentions_cons in Hno. destruct Hno as [-> Hno].
  apply not_mentions_cons in Hno. destruct Hno as [-> _]. reflexivity.
Qed.

Lemma not_mentions_category q :
  ~ mentions category_phrases q -> asks_category q = false.
Proof.
  intros Hno. unfold asks_category, category_phrases in *.
  apply not_mentions_cons in Hno. destruct Hno as [-> Hno].
  apply not_mentions_cons in Hno. destruct Hno as [-> Hno].
  apply not_mentions_cons in Hno. destruct Hno as [-> _]. reflexivity.
Qed.

Lemma mentions_statistics q :
  mentions statistics_phrases q -> asks_statistics q = true.
Proof.
  intros (phrase & pre & post & Hin & ->). unfold asks_statistics.
  cbn [statistics_phrases In] in Hin.
  destruct Hin as [<- | [<- | [<- | []]]];
    rewrite contains_surrounded;
    rewrite ?orb_true_r; reflexivity.
Qed.

Lemma process_statistics query c :
  asks_list_all (lower query) = false ->
  asks_category (lower query) = false ->
  asks_statistics (lower query) = true ->
  process_user_query query (Some c)
  = (Return (rendered (u "Statistics: ")
               (fst (call_tool (u "get_statistics") (JObj []) c))),
     Some (snd (call_tool (u "get_statistics") (JObj []) c))).
Proof.
  intros Hq1 Hq2 Hq3. unfold process_user_query, response_parts, call_or.
  rewrite Hq1, Hq2, Hq3.
  pose proof (render_call (u "Statistics: ") (u "get_statistics") (JObj []) c)
    as Hr.
  destruct (call_tool (u "get_statistics") (JObj []) c) as [r c'].
  cbn [fst snd] in *. cbv beta iota zeta. f_equal. exact Hr.
Qed.

(** The [try] statement of [process_user_query] always completes. *)
Lemma response_parts_returns query_lower mcp_client :
  exists parts, fst (response_parts query_lower mcp_client) = Return parts.
Proof.
  assert (Hcall : forall label tool_name args default,
             exists parts,
               fst (let (r, c') := call_or mcp_client tool_name args default in
                    (try_except_Exception
                       (result <- r;;
                        Return [label ++ Json.dumps false result])%py
                       on_error, c')) = Return parts).
  { intros label tool_name args default. unfold call_or.
    destruct mcp_client as [c|]; [|eexists; reflexivity].
    destruct (call_tool tool_name args c) as [[v|e] c'] eqn:E; cbn [fst].
    - eexists. reflexivity.
    - cbn [bind try_except_Exception].
      assert (He : fst (call_tool tool_name args c) = Raise e)
        by (now rewrite E).
      rewrite (call_tool_raises _ _ _ He). unfold on_error.
      rewrite (call_tool_raises_str _ _ _ He). eexists. reflexivity. }
  unfold response_parts.
  destruct (asks_list_all query_lower); [apply Hcall|].
  destruct (asks_category query_lower).
  { destruct (Hcall (u "Products in " ++ u "Электроника" ++ u ": ")
                (u "list_products")
                (JObj [(u "category", JStr (u "Электроника"))])
                (JObj [(u "products", JArr [])])) as [parts Hparts].
    exists parts. exact Hparts. }
  destruct (asks_statistics query_lower); [apply Hcall|].
  destruct (asks_product query_lower).
  { destruct (product_loop (split query_lower) mcp_client) as [parts c'].
    eexists. reflexivity. }
  destruct (asks_add query_lower); [eexists; reflexivity|].
  destruct (asks_discount query_lower); [|eexists; reflexivity].
  destruct calculator_literal_returns as [text ->].
  eexists. reflexivity.
Qed.

(** The loop of the product branch up to its first usable id. *)
Lemma product_loop_first_id word n rest mcp_client : forall pre,
  no_int_after is_id (pre ++ [u "id"]) ->
  py_int word = Some n ->
  product_loop (pre ++ u "id" :: word :: rest) mcp_client
  = let (r, c') :=
      call_or mcp_client (u "get_product")
              (JObj [(u "product_id", JInt n)]) (JObj []) in
    match r with
    | Return result =>
      ([u "Product " ++ of_Z n ++ u ": " ++ Json.dumps false result], c')
    | Raise _ => product_loop (word :: rest) c'
    end.
Proof.
  induction pre as [|w pre IH]; intros Hpre Hword.
  - cbn [app product_loop].
    replace (Text.eqb (u "id") (u "id")) with true by reflexivity.
    rewrite Hword. reflexivity.
  - cbn [app]. cbn [app] in Hpre.
    destruct pre as [|w' pre'].
    + cbn [app] in *. destruct Hpre as [Hw _].
      cbn [product_loop]. fold (is_id w).
      destruct (is_id w) eqn:Ew.
      * rewrite (Hw eq_refl). apply (IH I Hword).
      * apply (IH I Hword).
    + cbn [app] in *. destruct Hpre as [Hw Hrest].
      cbn [product_loop]. fold (is_id w).
      destruct (is_id w) eqn:Ew.
      * rewrite (Hw eq_refl). apply (IH Hrest Hword).
      * apply (IH Hrest Hword).
Qed.

Lemma find_product_id_first word n rest marker : forall pre,
  is_id_or_nomer marker = true ->
  no_int_after is_id_or_nomer (pre ++ [marker]) ->
  py_int word = Some n ->
  MockLLM.find_product_id (pre ++ marker :: word :: rest) = Some n.
Proof.
  induction pre as [|w pre IH]; intros Hmarker Hpre Hword.
  - cbn [app MockLLM.find_product_id]. fold (is_id_or_nomer marker).
    now rewrite Hmarker, Hword.
  - cbn [app]. cbn [app] in Hpre.
    destruct pre as [|w' pre'].
    + cbn [app] in *. destruct Hpre as [Hw _].
      cbn [MockLLM.find_product_id]. fold (is_id_or_nomer w).
      destruct (is_id_or_nomer w) eqn:Ew.
      * rewrite (Hw eq_refl). apply (IH Hmarker I Hword).
      * apply (IH Hmarker I Hword).
    + cbn [app] in *. destruct Hpre as [Hw Hrest].
      cbn [MockLLM.find_product_id]. fold (is_id_or_nomer w).
      destruct (is_id_or_nomer w) eqn:Ew.
      * rewrite (Hw eq_refl). apply (IH Hmarker Hrest Hword).
      * apply (IH Hmarker Hrest Hword).
Qed.

End MoreRoutingFacts.

(** X5: a query that mentions neither a "list everything" phrase nor a
    category phrase but mentions a statistics phrase is routed to
    [get_statistics]: [process_user_query] performs exactly the call
    [call_tool("get_statistics", {})] and renders its outcome after
    "Statistics: "; without a client it renders the empty dict; and
    [MockLLM._generate] emits a tool use that names [get_statistics] and has
    no [args] entry. *)
Theorem statistics_routes_to_get_statistics :
  forall `{PyRuntime} (query : str),
    ~ mentions list_everything_phrases (lower query) ->
    ~ mentions category_phrases (lower query) ->
    mentions statistics_phrases (lower query) ->
    (forall c : MCPClient,
        let outcome := call_tool (u "get_statistics") (JObj []) c in
        process_user_query query (Some c)
        = (Return (rendered (u "Statistics: ") (fst outcome)),
           Some (snd outcome)))
    /\ process_user_query query None
       = (Return (u "Statistics: " ++ Json.dumps false (JObj [])), None)
    /\ (forall earlier : list str,
          MockLLM._generate (earlier ++ [query])
          = Return (MockLLM.with_tool_use (u "Getting product statistics.")
                      (JObj [(u "tool", JStr (u "get_statistics"))]))).
Proof.
  intros R query H1 H2 H3.
  apply not_mentions_list_everything in H1.
  apply not_mentions_category in H2.
  apply mentions_statistics in H3.
  split; [|split].
  - intros c. apply process_statistics; assumption.
  - unfold process_user_query, response_parts, call_or.
    rewrite H1, H2, H3. reflexivity.
  - intros earlier. unfold MockLLM._generate, MockLLM.content_for.
    rewrite last_opt_snoc.
    change (MockLLM.asks_list_all (lower query))
      with (asks_list_all (lower query)).
    change (MockLLM.asks_category (lower query))
      with (asks_category (lower query)).
    change (MockLLM.asks_statistics (lower query))
      with (asks_statistics (lower query)).
    rewrite H1, H2, H3. reflexivity.
Qed.

Lemma statistics_routes_to_get_statistics_witness :
  ~ mentions list_everything_phrases (lower (u "Price STATISTICS please"))
  /\ ~ mentions category_phrases (lower (u "Price STATISTICS please"))
  /\ mentions statistics_phrases (lower (u "Price STATISTICS please"))
  /\ fst (process_user_query (u "Price STATISTICS please") None)
     = Return (u "Statistics: {}").
Proof.
  assert (H1 : ~ mentions list_everything_phrases
                 (lower (u "Price STATISTICS please"))).
  { intros Hm. apply mentions_list_everything in Hm.
    vm_compute in Hm. discriminate. }
  assert (H2 : ~ mentions category_phrases
                 (lower (u "Price STATISTICS please"))).
  { intros Hm. apply mentions_category in Hm.
    vm_compute in Hm. discriminate. }
  assert (H3 : mentions statistics_phrases
                 (lower (u "Price STATISTICS please"))).
  { exists (u "statistics"), (u "price "), (u " please").
    split; [right; left; reflexivity | reflexivity]. }
  split; [exact H1|]. split; [exact H2|]. split; [exact H3|].
  destruct (statistics_routes_to_get_statistics _ H1 H2 H3)
    as [_ [Hnone _]].
  rewrite Hnone. reflexivity.
Defined.

(** X6: [process_user_query] never raises: for every query and every
    client (or none), whatever the child answers and whatever the runtime's
    builtins do, it returns a text. *)
Theorem process_user_query_always_answers :
  forall `{PyRuntime} (query : str) (mcp_client : option MCPClient),
    exists text, fst (process_user_query query mcp_client) = Return text.
Proof.
  intros R query mcp_client. unfold process_user_query.
  destruct (response_parts_returns (lower query) mcp_client)
    as [parts Hparts].
  destruct (response_parts (lower query) mcp_client) as [r c'].
  cbn [fst] in *. rewrite Hparts. eexists. reflexivity.
Qed.

(** X7: a query that matches none of the first four rules (list-all,
    category, statistics, product) leaves the client exactly as it was: no
    request is written, no line is read and the request counter does not
    move. *)
Theorem process_user_query_leaves_client :
  forall `{PyRuntime} (query : str) (mcp_client : option MCPClient),
    asks_list_all (lower query) = false ->
    asks_category (lower query) = false ->
    asks_statistics (lower query) = false ->
    asks_product (lower query) = false ->
    snd (process_user_query query mcp_client) = mcp_client.
Proof.
  intros R query mcp_client H1 H2 H3 H4.
  unfold process_user_query, response_parts.
  rewrite H1, H2, H3, H4.
  destruct (asks_add (lower query)); [reflexivity|].
  destruct (asks_discount (lower query)); reflexivity.
Qed.

Lemma process_user_query_leaves_client_witness :
  asks_list_all (lower (u "What is a 10% discount?")) = false
  /\ asks_category (lower (u "What is a 10% discount?")) = false
  /\ asks_statistics (lower (u "What is a 10% discount?")) = false
  /\ asks_product (lower (u "What is a 10% discount?")) = false
  /\ snd (process_user_query (u "What is a 10% discount?")
            (Some (init stale_child)))
     = Some (init stale_child).
Proof.
  repeat (split; [reflexivity|]).
  exact (@process_user_query_leaves_client RefPy_runtime
           (u "What is a 10% discount?") (Some (init stale_child))
           eq_refl eq_refl eq_refl eq_refl).
Defined.

(** X8: in the product branch of [process_user_query] the first word "id"
    that is followed by a word [int] accepts decides the call: the tool
    [get_product] is called with [product_id] equal to that integer. When
    the call returns, the answer is "Product n: " followed by the result
    (without a client: by the empty dict); when the call raises and no later
    "id" is followed by an integer, the failure is swallowed and the answer
    is the empty string. *)
Theorem product_id_is_first_integer_after_id :
  forall `{PyRuntime} (query : str) (pre rest : list str) (word : str)
         (n : Z),
    asks_list_all (lower query) = false ->
    asks_category (lower query) = false ->
    asks_statistics (lower query) = false ->
    asks_product (lower query) = true ->
    split (lower query) = pre ++ u "id" :: word :: rest ->
    no_int_after is_id (pre ++ [u "id"]) ->
    py_int word = Some n ->
    process_user_query query None
    = (Return (u "Product " ++ of_Z n ++ u ": " ++ Json.dumps false (JObj [])),
       None)
    /\ (forall c : MCPClient,
          let outcome :=
            call_tool (u "get_product") (JObj [(u "product_id", JInt n)]) c in
          (forall result,
              fst outcome = Return result ->
              process_user_query query (Some c)
              = (Return (u "Product " ++ of_Z n ++ u ": "
                           ++ Json.dumps false result),
                 Some (snd outcome)))
          /\ (forall e,
                fst outcome = Raise e ->
                no_int_after is_id (word :: rest) ->
                process_user_query query (Some c)
                = (Return [], Some (snd outcome)))).
Proof.
  intros R query pre rest word n H1 H2 H3 H4 Hsplit Hpre Hword.
  unfold process_user_query, response_parts.
  rewrite H1, H2, H3, H4, Hsplit.
  split; [|intros c; split].
  - rewrite (product_loop_first_id _ rest None _ Hpre Hword).
    cbn [call_or]. cbn [bind join_space]. reflexivity.
  - intros result Hret.
    rewrite (product_loop_first_id _ rest (Some c) _ Hpre Hword).
    cbn [call_or].
    destruct (call_tool (u "get_product")
                (JObj [(u "product_id", JInt n)]) c) as [r c'].
    cbn [fst snd] in *. subst r. reflexivity.
  - intros e Hraise Hrest.
    rewrite (product_loop_first_id _ rest (Some c) _ Hpre Hword).
    cbn [call_or].
    destruct (call_tool (u "get_product")
                (JObj [(u "product_id", JInt n)]) c) as [r c'].
    cbn [fst snd] in *. subst r.
    rewrite (product_loop_without_id _ _ Hrest). reflexivity.
Qed.

Lemma product_id_is_first_integer_after_id_witness :
  asks_list_all (lower (u "Find product ID 7 please")) = false
  /\ asks_category (lower (u "Find product ID 7 please")) = false
  /\ asks_statistics (lower (u "Find product ID 7 please")) = false
  /\ asks_product (lower (u "Find product ID 7 please")) = true
  /\ split (lower (u "Find product ID 7 please"))
     = [u "find"; u "product"] ++ u "id" :: u "7" :: [u "please"]
  /\ no_int_after is_id ([u "find"; u "product"] ++ [u "id"])
  /\ py_int (u "7") = Some 7%Z
  /\ process_user_query (u "Find product ID 7 please") None
     = (Return (u "Product 7: {}"), None).
Proof.
  assert (Hpre : no_int_after is_id ([u "find"; u "product"] ++ [u "id"])).
  { cbn. repeat split; discriminate. }
  repeat (split; [reflexivity|]). split; [exact Hpre|].
  split; [reflexivity|].
  exact (proj1 (@product_id_is_first_integer_after_id RefPy_runtime
                  (u "Find product ID 7 please")
                  [u "find"; u "product"] [u "please"] (u "7") 7%Z
                  eq_refl eq_refl eq_refl eq_refl eq_refl Hpre eq_refl)).
Defined.

(** X9: in the list-all, category and statistics branches a failure reported
    by the provider reaches the user: when the response object has no
    ["result"] but an ["error"] entry, [process_user_query] answers
    "Error: MCP Error: " followed by the text of that entry. *)
Theorem provider_error_is_reported :
  forall `{PyRuntime} (query : str) (c : MCPClient) kv error,
    asks_list_all (lower query) || asks_category (lower query)
      || asks_statistics (lower query) = true ->
    stdin_open (process c) = true ->
    next_line (process c) = Doc (JObj kv) ->
    lookup (u "result") kv = None ->
    lookup (u "error") kv = Some error ->
    fst (process_user_query query (Some c))
    = Return (u "Error: MCP Error: " ++ py_str error).
Proof.
  intros R query c kv error Hrule Hopen Hline Hres Herr.
  assert (Hcall : forall tool_name args,
             fst (call_tool tool_name args c)
             = Raise (Exn Exception_ (u "MCP Error: " ++ py_str error))).
  { intros tool_name args.
    rewrite call_tool_outcome, Hline, read_response_object, Hres, Herr
      by exact Hopen.
    reflexivity. }
  destruct (asks_list_all (lower query)) eqn:E1.
  { rewrite (process_list_all _ _ E1). cbn [fst]. rewrite Hcall.
    reflexivity. }
  destruct (asks_category (lower query)) eqn:E2.
  { rewrite (process_category _ _ E1 E2). cbn [fst]. rewrite Hcall.
    reflexivity. }
  cbn [orb] in Hrule.
  rewrite (process_statistics _ _ E1 E2 Hrule). cbn [fst]. rewrite Hcall.
  reflexivity.
Qed.

Lemma provider_error_is_reported_witness :
  let child :=
    answering (JObj [ (u "id", JInt 1);
                      (u "error", JStr (u "catalog unavailable")) ]) in
  asks_list_all (lower (u "show products")) || asks_category (lower (u "show products"))
    || asks_statistics (lower (u "show products")) = true
  /\ stdin_open (process (init child)) = true
  /\ next_line (process (init child))
     = Doc (JObj [ (u "id", JInt 1);
                   (u "error", JStr (u "catalog unavailable")) ])
  /\ fst (process_user_query (u "show products") (Some (init child)))
     = Return (u "Error: MCP Error: catalog unavailable").
Proof.
  intros child. repeat (split; [reflexivity|]).
  exact (@provider_error_is_reported RefPy_runtime
           (u "show products") (init child)
           [ (u "id", JInt 1); (u "error", JStr (u "catalog unavailable")) ]
           (JStr (u "catalog unavailable"))
           eq_refl eq_refl eq_refl eq_refl eq_refl).
Defined.

(** X10: [run_agent] answers every query with a text, the one
    [process_user_query] gives without a client: the graph never contacts
    the tool server, and the value under ["response"] is never left at
    [None]. *)
Theorem run_agent_answers_without_client :
  forall `{PyRuntime} (q : str),
    exists text,
      run_agent q = Return (Some text)
      /\ process_user_query q None = (Return text, None).
Proof.
  intros R q.
  destruct (response_parts_returns (lower q) None) as [parts Hparts].
  exists (join_space parts).
  assert (Hnone : snd (response_parts (lower q) None) = None).
  { unfold response_parts, call_or.
    destruct (asks_list_all _); [reflexivity|].
    destruct (asks_category _); [reflexivity|].
    destruct (asks_statistics _); [reflexivity|].
    destruct (asks_product _).
    - generalize (split (lower q)). intros words.
      induction words as [|w ws IH]; [reflexivity|].
      cbn [product_loop]. destruct ws as [|w' ws']; [reflexivity|].
      destruct (Text.eqb w (u "id")); [|exact IH].
      destruct (py_int w'); [reflexivity | exact IH].
    - destruct (asks_add _); [reflexivity|].
      destruct (asks_discount _); reflexivity. }
  assert (Hq : process_user_query q None = (Return (join_space parts), None)).
  { unfold process_user_query.
    destruct (response_parts (lower q) None) as [r c'].
    cbn [fst snd] in *. subst. reflexivity. }
  split; [|exact Hq].
  unfold run_agent, invoke, process_node. cbn [query].
  rewrite Hq. reflexivity.
Qed.

Lemma run_agent_answers_blank :
  run_agent (u "   ")
  = Return (Some (u "How can I help you with product management?")).
Proof. vm_compute. reflexivity. Qed.

(** X11: in [MockLLM._generate] the first marker word ("id" or "номер")
    followed by a word [int] accepts gives the product id. A non-zero id
    yields the tool use [get_product] with that [product_id]; the id 0 is
    treated like a missing id and yields "Please specify a product ID.". *)
Theorem generate_product_id :
  forall `{PyRuntime} (earlier : list str) (query : str)
         (pre rest : list str) (marker word : str) (n : Z),
    MockLLM.asks_list_all (lower query) = false ->
    MockLLM.asks_category (lower query) = false ->
    MockLLM.asks_statistics (lower query) = false ->
    MockLLM.asks_product (lower query) = true ->
    split (lower query) = pre ++ marker :: word :: rest ->
    is_id_or_nomer marker = true ->
    no_int_after is_id_or_nomer (pre ++ [marker]) ->
    py_int word = Some n ->
    MockLLM._generate (earlier ++ [query])
    = Return
        (if (n =? 0)%Z then u "Please specify a product ID."
         else MockLLM.with_tool_use
                (u "Getting product with ID " ++ of_Z n ++ u ".")
                (JObj [ (u "tool", JStr (u "get_product"));
                        (u "args", JObj [(u "product_id", JInt n)]) ])).
Proof.
  intros R earlier query pre rest marker word n H1 H2 H3 H4 Hsplit Hmarker
         Hpre Hword.
  unfold MockLLM._generate, MockLLM.content_for.
  rewrite last_opt_snoc, H1, H2, H3, H4, Hsplit.
  rewrite (find_product_id_first _ rest _ _ Hmarker Hpre Hword).
  destruct (n =? 0)%Z; reflexivity.
Qed.

Lemma generate_product_id_witness :
  MockLLM.asks_list_all (lower (u "show PRODUCT ID 0")) = false
  /\ MockLLM.asks_category (lower (u "show PRODUCT ID 0")) = false
  /\ MockLLM.asks_statistics (lower (u "show PRODUCT ID 0")) = false
  /\ MockLLM.asks_product (lower (u "show PRODUCT ID 0")) = true
  /\ split (lower (u "show PRODUCT ID 0"))
     = [u "show"; u "product"] ++ u "id" :: u "0" :: []
  /\ is_id_or_nomer (u "id") = true
  /\ no_int_after is_id_or_nomer ([u "show"; u "product"] ++ [u "id"])
  /\ py_int (u "0") = Some 0%Z
  /\ MockLLM._generate [u "show PRODUCT ID 0"]
     = Return (u "Please specify a product ID.").
Proof.
  assert (Hpre : no_int_after is_id_or_nomer
                   ([u "show"; u "product"] ++ [u "id"])).
  { cbn. repeat split; discriminate. }
  repeat (split; [reflexivity|]). split; [exact Hpre|].
  split; [reflexivity|].
  pose proof (@generate_product_id RefPy_runtime [] (u "show PRODUCT ID 0")
                [u "show"; u "product"] [] (u "id") (u "0") 0%Z
                eq_refl eq_refl eq_refl eq_refl eq_refl eq_refl Hpre eq_refl)
    as Hgen.
  vm_compute in Hgen. vm_compute. exact Hgen.
Defined.

(** X12: the only exception [MockLLM._generate] raises is [IndexError]
    (an empty message list, or a percent query with no word before the
    first percent sign or none after it); when the last message contains no
    percent sign it always returns a content. *)
Theorem generate_raises_only_IndexError :
  forall `{PyRuntime} (msgs : list str),
    (forall e, MockLLM._generate msgs = Raise e -> exn_cls e = IndexError)
    /\ (forall last_message,
          last_opt msgs = Some last_message ->
          contains (u "%") (lower last_message) = false ->
          exists content, MockLLM._generate msgs = Return content).
Proof.
  intros R msgs. unfold MockLLM._generate.
  destruct (last_opt msgs) as [m|]; [|split; [now intros e [= <-] | discriminate]].
  unfold MockLLM.content_for.
  assert (Hcalc :
            forall parts part0,
              (forall e,
                  (x <- MockLLM.last_item (split (strip part0));;
                   part1 <- MockLLM.item1 parts;;
                   y <- MockLLM.last_item (split (strip part1));;
                   Return (MockLLM.with_tool_use (u "Calculating discount.")
                             (JObj [ (u "tool", JStr (u "calculator"));
                                     (u "args",
                                      JObj [(u "expression",
                                             JStr (x ++ u "% of " ++ y))]) ])))%py
                  = Raise e -> exn_cls e = IndexError)).
  { intros parts part0 e. unfold MockLLM.last_item, MockLLM.item1.
    destruct (last_opt (split (strip part0))); cbn [bind];
      [|now intros [= <-]].
    destruct parts as [|? [|part1 ?]]; cbn [bind]; try (now intros [= <-]).
    destruct (last_opt (split (strip part1))); cbn [bind];
      [discriminate | now intros [= <-]]. }
  split.
  - intros e.
    destruct (MockLLM.asks_list_all (lower m)); [discriminate|].
    destruct (MockLLM.asks_category (lower m)); [discriminate|].
    destruct (MockLLM.asks_statistics (lower m)); [discriminate|].
    destruct (MockLLM.asks_product (lower m)).
    { destruct (MockLLM.find_product_id _) as [n|]; [|discriminate].
      destruct (n =? 0)%Z; discriminate. }
    destruct (MockLLM.asks_add (lower m)); [discriminate|].
    destruct (MockLLM.asks_calculation (lower m)); [|discriminate].
    destruct (contains (u "%") (lower m)); [|discriminate].
    destruct (split_on (u "%") (lower m)) as [|part0 parts'] eqn:Es;
      [discriminate|].
    apply Hcalc.
  - intros last_message [= <-] Hno.
    destruct (MockLLM.asks_list_all (lower m)); [eexists; reflexivity|].
    destruct (MockLLM.asks_category (lower m)); [eexists; reflexivity|].
    destruct (MockLLM.asks_statistics (lower m)); [eexists; reflexivity|].
    destruct (MockLLM.asks_product (lower m)).
    { destruct (MockLLM.find_product_id _) as [n|]; [|eexists; reflexivity].
      destruct (n =? 0)%Z; eexists; reflexivity. }
    destruct (MockLLM.asks_add (lower m)); [eexists; reflexivity|].
    destruct (MockLLM.asks_calculation (lower m)); [|eexists; reflexivity].
    rewrite Hno. eexists. reflexivity.
Qed.

Lemma generate_raises_only_IndexError_witness :
  MockLLM._generate [u "discount 15%"]
  = Raise (Exn IndexError (u "list index out of range"))
  /\ last_opt [u "calculate the price"] = Some (u "calculate the price")
  /\ contains (u "%") (lower (u "calculate the price")) = false
  /\ exists content,
       MockLLM._generate [u "calculate the price"] = Return content.
Proof.
  split; [reflexivity|]. split; [reflexivity|]. split; [reflexivity|].
  exact (proj2 (@generate_raises_only_IndexError RefPy_runtime
                  [u "calculate the price"])
               (u "calculate the price") eq_refl eq_refl).
Defined.

(** X13: [calculator] never hands a percentage expression to [eval]: when
    the expression contains a percent sign and splits into exactly two
    parts at " of ", the result is the same whatever [eval] would do, and it
    is always a returned text (the formatted product, or
    "Error calculating: ..." when an operand is not a float). *)
Theorem percentage_is_not_evaluated :
  forall (R : PyRuntime) (ev : str -> result str)
         (expression part0 part1 : str),
    contains (u "%") expression = true ->
    split_on (u " of ") expression = [part0; part1] ->
    @calculator (with_eval R ev) expression = @calculator R expression
    /\ exists text, @calculator R expression = Return text.
Proof.
  intros R ev expression part0 part1 Hpct Hparts.
  unfold calculator, calculator_body. rewrite Hpct, Hparts.
  split; [reflexivity|].
  unfold float_of.
  destruct (py_float (strip (remove_char 37 (strip part0))));
    cbn [bind try_except_Exception exn_cls is_Exception];
    [|eexists; reflexivity].
  destruct (py_float (strip part1));
    cbn [bind try_except_Exception exn_cls is_Exception];
    eexists; reflexivity.
Qed.

Lemma percentage_is_not_evaluated_witness :
  contains (u "%") (u " 2.5 %  of 80") = true
  /\ split_on (u " of ") (u " 2.5 %  of 80") = [u " 2.5 % "; u "80"]
  /\ @calculator
       (with_eval RefPy_runtime (fun _ => Raise (Exn SystemExit [])))
       (u " 2.5 %  of 80")
     = Return (u "2.5% of 80.0 = 2.0").
Proof.
  split; [reflexivity|]. split; [reflexivity|].
  rewrite (proj1 (percentage_is_not_evaluated RefPy_runtime
                    (fun _ => Raise (Exn SystemExit []))
                    (u " 2.5 %  of 80") eq_refl eq_refl)).
  reflexivity.
Defined.

Section AddPhraseFacts.
Context `{PyRuntime}.

Lemma contains_suffix_phrase a b s :
  contains (a ++ b) s = true -> contains b s = true.
Proof.
  intros Hs. destruct (contains_inv _ _ Hs) as (pre & post & ->).
  replace (pre ++ (a ++ b) ++ post) with ((pre ++ a) ++ b ++ post)
    by (now rewrite <- !app_assoc).
  apply contains_surrounded.
Qed.

End AddPhraseFacts.

(** X14: the phrase "add product" never selects the add branch of
    [process_user_query]: a query that contains it also contains "product",
    so the product branch takes it first; when no "id" is followed by an
    integer (and the first three rules do not match) the answer is the empty
    string, not the instructions for adding a product. *)
Theorem add_product_phrase_is_shadowed :
  forall `{PyRuntime} (query : str) (mcp_client : option MCPClient),
    contains (u "add product") (lower query) = true ->
    asks_product (lower query) = true
    /\ (asks_list_all (lower query) = false ->
        asks_category (lower query) = false ->
        asks_statistics (lower query) = false ->
        no_int_after is_id (split (lower query)) ->
        process_user_query query mcp_client = (Return [], mcp_client)).
Proof.
  intros R query mcp_client Hadd.
  assert (Hp : asks_product (lower query) = true).
  { unfold asks_product.
    rewrite (contains_suffix_phrase (u "add ") (u "product") _ Hadd).
    reflexivity. }
  split; [exact Hp|]. intros H1 H2 H3 Hwords.
  now apply process_product_without_id.
Qed.

Lemma add_product_phrase_is_shadowed_witness :
  contains (u "add product") (lower (u "Please add product Lamp")) = true
  /\ no_int_after is_id (split (lower (u "Please add product Lamp")))
  /\ process_user_query (u "Please add product Lamp") None
     = (Return [], None).
Proof.
  assert (Hwords : no_int_after is_id
                     (split (lower (u "Please add product Lamp")))).
  { cbn. repeat split; discriminate. }
  split; [reflexivity|]. split; [exact Hwords|].
  exact (proj2 (@add_product_phrase_is_shadowed RefPy_runtime
                  (u "Please add product Lamp") None eq_refl)
               eq_refl eq_refl eq_refl Hwords).
Defined.

(* ================================================================== *)
(** * Further properties of the catalog tools *)
(* ================================================================== *)

Section MoreServerFacts.
Context `{PyRuntime}.

Lemma has_int_id_getitem p i :
  has_int_id p i -> py_getitem p (u "id") = Return (JInt i).
Proof. intros (kv & -> & Hid). unfold py_getitem. now rewrite Hid. Qed.

Lemma find_product_skips n : forall pre ids tail,
  int_ids pre ids -> ~ In n ids ->
  find_product n (pre ++ tail) = find_product n tail.
Proof.
  intros pre ids tail Hids. induction Hids as [|p i pre ids Hp _ IH];
    intros Hnot; [reflexivity|].
  cbn [app find_product]. rewrite (has_int_id_getitem Hp). cbn [bind eq_int].
  destruct (i =? n)%Z eqn:E.
  - apply Z.eqb_eq in E. subst i. exfalso. apply Hnot. now left.
  - apply IH. intros Hin. apply Hnot. now right.
Qed.

Lemma filter_category_well_formed category : forall products,
  Forall (fun p => category_text p <> None) products ->
  filter_category category products
  = Return (filter (in_category category) products).
Proof.
  induction products as [|p ps IH]; intros Hwf; [reflexivity|].
  inversion Hwf as [|? ? Hp Hps]; subst.
  cbn [filter_category filter]. unfold in_category at 1.
  unfold category_text in *. unfold py_get.
  destruct p as [| | | | | |kv]; try (now destruct Hp).
  destruct (lookup (u "category") kv) as [[| | | |c| |]|];
    try (now destruct Hp); cbn [bind py_lower]; rewrite (IH Hps);
    cbn [bind]; reflexivity.
Qed.

Lemma count_in_stock_counts : forall products n,
  count_in_stock products = Return n ->
  n = Z.of_nat (List.length (filter in_stock products)).
Proof.
  induction products as [|p ps IH]; intros n.
  - now intros [= <-].
  - cbn [count_in_stock filter]. unfold py_get.
    destruct p as [| | | | | |kv]; cbn [bind]; try discriminate.
    destruct (count_in_stock ps) as [m|] eqn:E; cbn [bind]; [|discriminate].
    specialize (IH _ eq_refl). intros Hn. injection Hn as Hn.
    rewrite <- Hn. clear Hn.
    assert (Hflag :
              in_stock (JObj kv)
              = truthy match lookup (u "in_stock") kv with
                       | Some v => v
                       | None => JBool false
                       end).
    { unfold in_stock, stock_flag.
      destruct (lookup (u "in_stock") kv) as [v|];
        [destruct (truthy v); reflexivity | reflexivity]. }
    rewrite Hflag. destruct (truthy _); cbn [List.length]; [|exact IH].
    match goal with |- ?lhs = _ => change lhs with (1 + m)%Z end. lia.
Qed.

Lemma nth_set_nth_nil r : forall h, nth r (set_nth r [] h) [] = [].
Proof.
  induction r as [|r IH]; intros [|x h]; cbn; auto.
Qed.

(** The state [add_product] leaves when it returns. *)
Lemma add_product_final_state name price category in_stock s v s' :
  add_product name price category in_stock s = (Return v, s') ->
  deref (products_data s') s' = []
  /\ products_file s' = Some (Stored []).
Proof.
  unfold add_product.
  destruct (load_products s) as [[products|e] s1] eqn:E; [|discriminate].
  apply load_products_ref in E. subst products.
  destruct (get_next_product_id s1); [|discriminate].
  intros [= _ <-].
  unfold save_products, mutate, deref.
  cbn [heap products_data products_file].
  rewrite !(nth_set_nth_nil (products_data s1)).
  split; reflexivity.
Qed.

Lemma add_product_on_empty name price category in_stock s :
  catalog s = Return [] ->
  fst (add_product name price category in_stock s)
  = Return (success (new_product (JInt 1) name price category in_stock)).
Proof. intros Hc. rewrite add_product_answer, Hc. reflexivity. Qed.

Lemma max_id_from_ints :
  int_arithmetic ->
  forall ps ids m,
    int_ids ps ids ->
    max_id_from (JInt m) ps = Return (JInt (fold_left Z.max ids m)).
Proof.
  intros [Hgt _] ps ids m Hids. revert m.
  induction Hids as [|p i ps ids Hp _ IH]; intros m; [reflexivity|].
  cbn [max_id_from fold_left]. rewrite (has_int_id_getitem Hp). cbn [bind].
  rewrite Hgt. cbn [bind].
  assert (Hmax : (if (i >? m)%Z then JInt i else JInt m) = JInt (Z.max m i)).
  { destruct (i >? m)%Z eqn:E; f_equal.
    - apply Z.gtb_lt in E. lia.
    - rewrite Z.gtb_ltb in E. apply Z.ltb_ge in E. lia. }
  rewrite Hmax. apply IH.
Qed.

Lemma fold_max_bounds : forall ids m,
  (m <= fold_left Z.max ids m)%Z
  /\ Forall (fun i => (i <= fold_left Z.max ids m)%Z) ids.
Proof.
  induction ids as [|i ids IH]; intros m; cbn [fold_left].
  - split; [lia | constructor].
  - destruct (IH (Z.max m i)) as [Hm Hall]. split; [lia|].
    constructor; [lia | exact Hall].
Qed.

Lemma corrupt_load s e :
  deref (products_data s) s = [] ->
  products_file s = Some (Corrupt e) ->
  load_products s = (Raise e, s).
Proof. intros Hmem Hfile. unfold load_products. now rewrite Hmem, Hfile. Qed.

End MoreServerFacts.

(** X15: [get_product] returns the first product whose id equals the
    requested one: when the products before it are dicts with other int
    ids, the answer is [{"success": True, "product": p}] for that product
    [p], whatever follows it in the catalog. *)
Theorem get_product_finds_first_match :
  forall `{PyRuntime} (s : Server) (before after : list json) (p : json)
         (ids : list Z) (product_id : Z),
    catalog s = Return (before ++ p :: after) ->
    int_ids before ids ->
    ~ In product_id ids ->
    has_int_id p product_id ->
    fst (get_product product_id s) = Return (success p).
Proof.
  intros R s before after p ids product_id Hcat Hids Hnot Hp.
  rewrite get_product_answer, Hcat. cbn [bind].
  rewrite (find_product_skips _ (p :: after) Hids Hnot).
  cbn [find_product]. rewrite (has_int_id_getitem Hp). cbn [bind eq_int].
  now rewrite Z.eqb_refl.
Qed.

Lemma get_product_finds_first_match_witness :
  let s := fresh (Some (Stored sample_catalog)) in
  catalog s
  = Return ([sample_product 1 "Books" 10 true]
              ++ sample_product 2 "Toys" 25 false
              :: [sample_product 3 "Books" 40 true])
  /\ int_ids [sample_product 1 "Books" 10 true] [1%Z]
  /\ ~ In 2%Z [1%Z]
  /\ has_int_id (sample_product 2 "Toys" 25 false) 2
  /\ fst (get_product 2 s)
     = Return (success (sample_product 2 "Toys" 25 false)).
Proof.
  intros s.
  assert (H1 : int_ids [sample_product 1 "Books" 10 true] [1%Z]).
  { repeat constructor. eexists. split; reflexivity. }
  assert (H2 : ~ In 2%Z [1%Z]) by (intros [E | []]; discriminate).
  assert (H3 : has_int_id (sample_product 2 "Toys" 25 false) 2)
    by (eexists; split; reflexivity).
  split; [reflexivity|]. split; [exact H1|]. split; [exact H2|].
  split; [exact H3|].
  exact (@get_product_finds_first_match RefPy_runtime s
           [sample_product 1 "Books" 10 true]
           [sample_product 3 "Books" 40 true]
           (sample_product 2 "Toys" 25 false) [1%Z] 2%Z
           eq_refl H1 H2 H3).
Defined.

(** X16: when no product of the catalog has the requested id (all products
    being dicts with int ids, or the catalog being empty), [get_product]
    raises [ValueError("Product with ID <n> not found")]. *)
Theorem get_product_not_found :
  forall `{PyRuntime} (s : Server) (products : list json) (ids : list Z)
         (product_id : Z),
    catalog s = Return products ->
    int_ids products ids ->
    ~ In product_id ids ->
    fst (get_product product_id s)
    = Raise (Exn ValueError
               (u "Product with ID " ++ of_Z product_id ++ u " not found")).
Proof.
  intros R s products ids product_id Hcat Hids Hnot.
  rewrite get_product_answer, Hcat. cbn [bind].
  rewrite <- (app_nil_r products).
  rewrite (find_product_skips _ [] Hids Hnot). reflexivity.
Qed.

Lemma get_product_not_found_witness :
  catalog (fresh None) = Return []
  /\ int_ids [] []
  /\ ~ In 1%Z []
  /\ fst (get_product 1 (fresh None))
     = Raise (Exn ValueError (u "Product with ID 1 not found")).
Proof.
  assert (H1 : int_ids [] []) by constructor.
  assert (H2 : ~ In 1%Z []) by (intros []).
  split; [reflexivity|]. split; [exact H1|]. split; [exact H2|].
  exact (@get_product_not_found RefPy_runtime (fresh None) [] [] 1%Z
           eq_refl H1 H2).
Defined.

(** X17: whenever [list_products] returns, the ["total"] of its answer is
    the number of products it lists; and an empty [category] string is
    treated like no category at all (the whole catalog, no ["category"]
    entry). *)
Theorem list_products_total_counts_listing :
  forall `{PyRuntime} (s : Server),
    (forall category v,
        fst (list_products category s) = Return v ->
        exists kv listed,
          v = JObj kv
          /\ lookup (u "products") kv = Some (JArr listed)
          /\ lookup (u "total") kv
             = Some (JInt (Z.of_nat (List.length listed))))
    /\ list_products (Some []) s = list_products None s
    /\ (forall products,
          catalog s = Return products ->
          fst (list_products None s)
          = Return (JObj [ (u "products", JArr products);
                           (u "total",
                            JInt (Z.of_nat (List.length products))) ])).
Proof.
  intros R s. split; [|split].
  - intros category v. rewrite list_products_answer.
    destruct (catalog s) as [products|e]; cbn [bind]; [|discriminate].
    destruct category as [[|c category]|].
    + intros [= <-]. eexists. exists products. repeat split.
    + destruct (filter_category (c :: category) products) as [filtered|];
        cbn [bind]; [|discriminate].
      intros [= <-]. eexists. exists filtered. repeat split.
    + intros [= <-]. eexists. exists products. repeat split.
  - reflexivity.
  - intros products Hcat. rewrite list_products_answer, Hcat. reflexivity.
Qed.

(** X18: on a catalog whose products are dicts with a string (or no)
    category, [list_products] with a non-empty category lists, in catalog
    order, exactly the products whose category equals the requested one up
    to letter case, and echoes the requested category. *)
Theorem list_products_filters_by_category :
  forall `{PyRuntime} (s : Server) (products : list json) (category : str),
    catalog s = Return products ->
    Forall (fun p => category_text p <> None) products ->
    category <> [] ->
    fst (list_products (Some category) s)
    = Return (JObj [ (u "products",
                      JArr (filter (in_category category) products));
                     (u "total",
                      JInt (Z.of_nat
                              (List.length
                                 (filter (in_category category) products))));
                     (u "category", JStr category) ]).
Proof.
  intros R s products category Hcat Hwf Hne.
  rewrite list_products_answer, Hcat. cbn [bind].
  destruct category as [|c category]; [now destruct Hne|].
  rewrite (filter_category_well_formed _ Hwf). reflexivity.
Qed.

Lemma list_products_filters_by_category_witness :
  let s := fresh (Some (Stored sample_catalog)) in
  catalog s = Return sample_catalog
  /\ Forall (fun p => category_text p <> None) sample_catalog
  /\ u "BOOKS" <> []
  /\ fst (list_products (Some (u "BOOKS")) s)
     = Return (JObj [ (u "products",
                       JArr [ sample_product 1 "Books" 10 true;
                              sample_product 3 "Books" 40 true ]);
                      (u "total", JInt 2);
                      (u "category", JStr (u "BOOKS")) ]).
Proof.
  intros s.
  assert (Hwf : Forall (fun p => category_text p <> None) sample_catalog)
    by (repeat constructor; discriminate).
  assert (Hne : u "BOOKS" <> []) by discriminate.
  split; [reflexivity|]. split; [exact Hwf|]. split; [exact Hne|].
  pose proof (@list_products_filters_by_category RefPy_runtime s
                sample_catalog (u "BOOKS") eq_refl Hwf Hne) as Hlist.
  vm_compute in Hlist. vm_compute. exact Hlist.
Defined.

(** X19: whenever [get_statistics] returns on a non-empty catalog,
    [total_products] is the number of products, [in_stock_count] is the
    number of products whose ["in_stock"] entry is truthy, and
    [out_of_stock_count] is the difference, so the two counts add up to the
    total. *)
Theorem get_statistics_counts :
  forall `{PyRuntime} (s : Server) (products : list json) (v : json),
    catalog s = Return products ->
    products <> [] ->
    fst (get_statistics s) = Return v ->
    exists kv,
      v = JObj kv
      /\ lookup (u "total_products") kv
         = Some (JInt (Z.of_nat (List.length products)))
      /\ lookup (u "in_stock_count") kv
         = Some (JInt (Z.of_nat (List.length (filter in_stock products))))
      /\ lookup (u "out_of_stock_count") kv
         = Some (JInt (Z.of_nat (List.length products)
                       - Z.of_nat (List.length (filter in_stock products)))).
Proof.
  intros R s products v Hcat Hne.
  rewrite get_statistics_answer, Hcat. cbn [bind].
  destruct products as [|p ps]; [now destruct Hne|].
  unfold statistics_of.
  destruct (prices_of (p :: ps)) as [prices|]; cbn [bind]; [|discriminate].
  destruct (category_items (p :: ps)) as [items|]; cbn [bind];
    [|discriminate].
  destruct (count_in_stock (p :: ps)) as [n|] eqn:En; cbn [bind];
    [|discriminate].
  apply count_in_stock_counts in En. subst n.
  destruct (sum_from (JInt 0) prices) as [total|]; cbn [bind];
    [|discriminate].
  destruct (py_truediv total (len prices)) as [avg|]; cbn [bind];
    [|discriminate].
  destruct (match prices with
            | [] => empty_sequence "min"
            | x :: xs => min_from x xs
            end) as [lo|]; cbn [bind]; [|discriminate].
  destruct (match prices with
            | [] => empty_sequence "max"
            | x :: xs => max_from x xs
            end) as [hi|]; cbn [bind]; [|discriminate].
  intros [= <-]. eexists. repeat split.
Qed.

Lemma get_statistics_counts_witness :
  let s := fresh (Some (Stored sample_catalog)) in
  catalog s = Return sample_catalog
  /\ sample_catalog <> []
  /\ exists v kv,
       fst (get_statistics s) = Return v
       /\ v = JObj kv
       /\ lookup (u "in_stock_count") kv = Some (JInt 2)
       /\ lookup (u "out_of_stock_count") kv = Some (JInt 1).
Proof.
  intros s.
  assert (Hne : sample_catalog <> []) by discriminate.
  split; [reflexivity|]. split; [exact Hne|].
  eexists.
  destruct (@get_statistics_counts RefPy_runtime s sample_catalog _
              eq_refl Hne eq_refl) as (kv & Hv & _ & Hin & Hout).
  exists kv. split; [reflexivity|]. split; [exact Hv|].
  split; [exact Hin | exact Hout].
Defined.

(** X20: when [add_product] returns, the in-memory catalog is empty and the
    products file holds the empty array: [products] and [products_data] are
    one list, which [clear()] empties before [extend(products)] copies it
    onto itself. Afterwards every [get_product] raises "not found",
    [list_products] lists nothing, and the next [add_product] assigns the
    id 1 again. *)
Theorem add_product_leaves_catalog_empty :
  forall `{PyRuntime} name price category in_stock (s : Server) v s',
    add_product name price category in_stock s = (Return v, s') ->
    catalog s' = Return []
    /\ products_file s' = Some (Stored [])
    /\ (forall product_id,
          fst (get_product product_id s')
          = Raise (Exn ValueError
                     (u "Product with ID " ++ of_Z product_id
                        ++ u " not found")))
    /\ fst (list_products None s')
       = Return (JObj [ (u "products", JArr []); (u "total", JInt 0) ])
    /\ (forall name2 price2 category2 in_stock2,
          fst (add_product name2 price2 category2 in_stock2 s')
          = Return (success
                      (new_product (JInt 1) name2 price2 category2
                                   in_stock2))).
Proof.
  intros R name price category in_stock s v s' Hadd.
  destruct (add_product_final_state _ _ _ _ _ Hadd) as [Hmem Hfile].
  assert (Hcat : catalog s' = Return [])
    by (now rewrite catalog_unfold, Hmem, Hfile).
  split; [exact Hcat|]. split; [exact Hfile|]. split; [|split].
  - intros product_id. rewrite get_product_answer, Hcat. reflexivity.
  - rewrite list_products_answer, Hcat. reflexivity.
  - intros. now apply add_product_on_empty.
Qed.

Lemma add_product_leaves_catalog_empty_witness :
  let s := fresh (Some (Stored sample_catalog)) in
  exists v s',
    add_product (u "lamp") (float_of_Z 5) (u "Home") true s = (Return v, s')
    /\ catalog s = Return sample_catalog
    /\ catalog s' = Return []
    /\ products_file s' = Some (Stored []).
Proof.
  intros s.
  destruct (add_product (u "lamp") (float_of_Z 5) (u "Home") true s)
    as [r s'] eqn:Hadd.
  assert (Hr : exists v, r = Return v).
  { assert (Hfst : fst (add_product (u "lamp") (float_of_Z 5) (u "Home")
                          true s) = r) by (now rewrite Hadd).
    vm_compute in Hfst. subst r. eexists. reflexivity. }
  destruct Hr as [v ->]. exists v, s'.
  split; [reflexivity|]. split; [reflexivity|].
  destruct (@add_product_leaves_catalog_empty RefPy_runtime _ _ _ _ _ _ _
              Hadd) as [Hcat [Hfile _]].
  split; [exact Hcat | exact Hfile].
Defined.

(** X21: under Python's int arithmetic, on a catalog whose products are
    dicts with int ids, the product [add_product] returns carries an id
    greater than every id in the catalog (one more than the largest), and
    the id 1 when the catalog is empty. *)
Theorem add_product_assigns_fresh_id :
  forall `{PyRuntime} name price category in_stock (s : Server)
         (products : list json) (ids : list Z),
    int_arithmetic ->
    catalog s = Return products ->
    int_ids products ids ->
    exists id,
      fst (add_product name price category in_stock s)
      = Return (success (new_product (JInt id) name price category in_stock))
      /\ Forall (fun i => (i < id)%Z) ids
      /\ (ids = [] -> id = 1%Z).
Proof.
  intros R name price category in_stock s products ids Hint Hcat Hids.
  rewrite add_product_answer, Hcat. cbn [bind].
  destruct Hids as [|p i ps ids Hp Hids].
  - exists 1%Z. cbn [bind]. repeat split. constructor.
  - rewrite (has_int_id_getitem Hp). cbn [bind].
    rewrite (max_id_from_ints Hint i Hids). cbn [bind].
    destruct Hint as [_ Hadd]. rewrite Hadd. cbn [bind].
    exists (fold_left Z.max ids i + 1)%Z.
    split; [reflexivity|]. split; [|discriminate].
    destruct (fold_max_bounds ids i) as [Hi Hall].
    constructor; [lia|].
    eapply Forall_impl; [|exact Hall]. cbn. intros; lia.
Qed.

Lemma add_product_assigns_fresh_id_witness :
  let s := fresh (Some (Stored sample_catalog)) in
  @int_arithmetic RefPy_runtime
  /\ catalog s = Return sample_catalog
  /\ int_ids sample_catalog [1%Z; 2%Z; 3%Z]
  /\ fst (add_product (u "lamp") (float_of_Z 5) (u "Home") true s)
     = Return (success
                 (new_product (JInt 4) (u "lamp") (float_of_Z 5) (u "Home")
                              true)).
Proof.
  intros s.
  assert (Hint : @int_arithmetic RefPy_runtime)
    by (split; intros; reflexivity).
  assert (Hids : int_ids sample_catalog [1%Z; 2%Z; 3%Z])
    by (repeat constructor; eexists; split; reflexivity).
  split; [exact Hint|]. split; [reflexivity|]. split; [exact Hids|].
  destruct (@add_product_assigns_fresh_id RefPy_runtime
              (u "lamp") (float_of_Z 5) (u "Home") true s
              sample_catalog [1%Z; 2%Z; 3%Z] Hint eq_refl Hids)
    as (id & Hret & _).
  reflexivity.
Defined.

(** X22: while the products file cannot be decoded and no product is in
    memory, every tool raises the decoder's exception and leaves the state
    as it was; the file is read again on the next call. *)
Theorem undecodable_file_fails_every_tool :
  forall `{PyRuntime} (s : Server) (e : exn),
    deref (products_data s) s = [] ->
    products_file s = Some (Corrupt e) ->
    (forall category, list_products category s = (Raise e, s))
    /\ (forall product_id, get_product product_id s = (Raise e, s))
    /\ get_statistics s = (Raise e, s)
    /\ (forall name price category in_stock,
          add_product name price category in_stock s = (Raise e, s)).
Proof.
  intros R s e Hmem Hfile.
  pose proof (corrupt_load s Hmem Hfile) as Hload.
  repeat split; intros;
    unfold list_products, get_product, get_statistics, add_product;
    rewrite Hload; reflexivity.
Qed.

Lemma undecodable_file_fails_every_tool_witness :
  let e := Exn JSONDecodeError (u "Expecting value: line 1 column 1 (char 0)") in
  let s := fresh (Some (Corrupt e)) in
  deref (products_data s) s = []
  /\ products_file s = Some (Corrupt e)
  /\ get_statistics s = (Raise e, s).
Proof.
  intros e s. split; [reflexivity|]. split; [reflexivity|].
  exact (proj1 (proj2 (proj2 (@undecodable_file_fails_every_tool
                                RefPy_runtime s e eq_refl eq_refl)))).
Defined.

(** X24: an [add_product] that raises (the file cannot be decoded, or the
    next id cannot be computed) has written nothing: the products file and
    the catalog are those from before the call. *)
Theorem failed_add_product_writes_nothing :
  forall `{PyRuntime} name price category in_stock (s : Server) e s',
    add_product name price category in_stock s = (Raise e, s') ->
    products_file s' = products_file s /\ catalog s' = catalog s.
Proof.
  intros R name price category in_stock s e s'. unfold add_product.
  pose proof (load_products_untouched s) as Hload.
  destruct (load_products s) as [[products|e1] s1]; cbn [snd] in Hload.
  - destruct (get_next_product_id s1); [discriminate|].
    intros [= _ <-]. exact Hload.
  - intros [= _ <-]. exact Hload.
Qed.

Lemma failed_add_product_writes_nothing_witness :
  let nameless := JObj [(u "name", JStr (u "item"))] in
  let s := fresh (Some (Stored [nameless])) in
  exists e s',
    add_product (u "lamp") (float_of_Z 5) (u "Home") true s = (Raise e, s')
    /\ exn_cls e = KeyError
    /\ products_file s' = Some (Stored [nameless])
    /\ catalog s' = Return [nameless].
Proof.
  intros nameless s.
  destruct (add_product (u "lamp") (float_of_Z 5) (u "Home") true s)
    as [r s'] eqn:Hadd.
  assert (Hr : r = Raise (Exn KeyError (u "'id'"))).
  { assert (Hfst : fst (add_product (u "lamp") (float_of_Z 5) (u "Home")
                          true s) = r) by (now rewrite Hadd).
    vm_compute in Hfst. subst r. reflexivity. }
  subst r. eexists. exists s'.
  split; [reflexivity|]. split; [reflexivity|].
  destruct (@failed_add_product_writes_nothing RefPy_runtime _ _ _ _ _ _ _
              Hadd) as [Hfile Hcat].
  split; [rewrite Hfile | rewrite Hcat]; reflexivity.
Defined.

(** An [Exception] subclass whose [__str__] raises: the handler of
    [calculator] raises in turn, from its [str(e)]. *)
Example calculator_unprintable_exception :
  let unprintable :=
    Exn (UserClass true (Some (ZeroDivisionError, u "division by zero"))) [] in
  @calculator (with_eval RefPy_runtime (fun _ => Raise unprintable))
    (u "1 + 1")
  = Raise (Exn ZeroDivisionError (u "division by zero")).
Proof. vm_compute. reflexivity. Qed.
